(** * The seer grouping-records backfill task

    A shallow embedding of
    [sentry/tasks/embeddings_grouping/backfill_seer_grouping_records_for_project.py]:
    the task [backfill_seer_grouping_records_for_project] and its continuation
    scheduler [call_next_backfill].

    The task is a straight-line procedure with early returns that calls into
    collaborators (the helpers of [embeddings_grouping.utils], the logger, the
    error reporter and the task queue).  It is embedded as a computation in a
    writer/error monad: a run yields the ordered list of collaborator calls it
    made (its trace) together with either a normal return or a raised
    exception.  The helpers of [embeddings_grouping.utils] are not part of the
    embedded module; what they return is taken from an environment record, so
    every statement below holds for all implementations of the helpers. *)

From Stdlib Require Import ZArith.
From stdpp Require Import gmap strings list pretty.

#[local] Set Warnings "-register-all,-clear-no-such-hyp".
#[local] Open Scope string_scope.
#[local] Open Scope list_scope.
#[local] Open Scope Z_scope.

(** ** Python values *)

(** The objects the task only passes along (query results, event payloads,
    service responses) are dynamically typed; [pyval] covers the JSON-like
    values they are made of. *)
Inductive pyval : Type :=
| PyNone
| PyBool (b : bool)
| PyInt (n : Z)
| PyStr (s : string)
| PyList (items : list pyval)
| PyDict (entries : gmap string pyval).

(** Python truthiness, as used by [if x:] and [not x]. *)
Definition truthy (v : pyval) : bool :=
  match v with
  | PyNone => false
  | PyBool b => b
  | PyInt n => negb (n =? 0)
  | PyStr s => negb (String.eqb s "")
  | PyList items => match items with [] => false | _ :: _ => true end
  | PyDict entries => negb (bool_decide (entries = ∅))
  end.

(** [d.get(key)]: the value under [key], [None] when the key is absent. *)
Definition dict_get (d : gmap string pyval) (key : string) : pyval :=
  default PyNone (d !! key).

(** ** Task arguments *)

(** [cohort: str | list[int] | None]. *)
Inductive Cohort : Type :=
| CohortNone
| CohortName (name : string)
| CohortIds (project_ids : list Z).

(** [not cohort] is true for [None], the empty string and the empty list. *)
Definition cohort_truthy (c : Cohort) : bool :=
  match c with
  | CohortNone => false
  | CohortName name => negb (String.eqb name "")
  | CohortIds project_ids => match project_ids with [] => false | _ :: _ => true end
  end.

(** The positional arguments of one invocation of the task, in the order of
    its signature (and of the [args=[...]] lists passed to [apply_async]). *)
Record TaskArgs : Type := {
  current_project_id : Z;
  last_processed_group_id_input : option Z;
  cohort : Cohort;
  last_processed_project_index_input : option Z;
  only_delete : bool;
  enable_ingestion : bool;
}.

Module Project.
(** The [Project] model instance; the task reads its [id] only. *)
Record t : Type := { id : Z }.
End Project.

(** ** Collaborators *)

(** What [initialize_backfill] does: return its triple, or raise one of the
    two exceptions the task catches. *)
Inductive InitResult : Type :=
| InitOk (project : Project.t) (last_processed_group_id : option Z)
         (last_processed_project_index : Z)
| InitFeatureError
| InitProjectDoesNotExist.

(** The configuration the task reads and the return values of the helpers it
    imports.  Option values are typed as their registered types. *)
Record Env : Type := {
  (** [options.get("seer.similarity-backfill-killswitch.enabled")] *)
  opt_killswitch_enabled : bool;
  (** [options.get("embeddings-grouping.seer.backfill-batch-size")] *)
  opt_backfill_batch_size : Z;
  (** [options.get("similarity.backfill_seer_threads")] *)
  opt_backfill_seer_threads : Z;
  (** [settings.SIMILARITY_BACKFILL_COHORT_MAP] *)
  SIMILARITY_BACKFILL_COHORT_MAP : gmap string (list Z);
  killswitch_enabled : Z → bool;
  initialize_backfill : Z → option Z → option Z → InitResult;
  get_current_batch_groups_from_postgres :
    Project.t → option Z → Z → bool → list Z * option Z;
  get_data_from_snuba : Project.t → list Z → pyval;
  filter_snuba_results : pyval → list Z → Project.t → pyval * list Z;
  get_events_from_nodestore :
    Project.t → pyval → list Z → pyval * gmap Z pyval;
  send_group_and_stacktrace_to_seer :
    list Z → pyval → Z → gmap string pyval;
  send_group_and_stacktrace_to_seer_multithreaded :
    list Z → pyval → Z → gmap string pyval;
  get_project_for_batch : Z → list Z → option Z * option Z;
}.

(** ** Traces *)

(** One entry per call that leaves the module, in program order.  Calls that
    return a value the task uses carry the arguments they were given;
    [SendToSeer] also carries the response it got back. *)
Inductive event : Type :=
| Log (msg : string)
| InitializeBackfill (project_id : Z) (last_processed_group_id : option Z)
                     (last_processed_project_index : option Z)
| DeleteSeerGroupingRecords (project_id : Z)
| GetCurrentBatchGroupsFromPostgres
    (project : Project.t) (last_processed_group_id : option Z)
    (batch_size : Z) (enable_ingestion : bool)
| GetDataFromSnuba (project : Project.t) (groups : list Z)
| FilterSnubaResults (snuba_results : pyval) (groups : list Z)
                     (project : Project.t)
| GetEventsFromNodestore (project : Project.t) (snuba_results : pyval)
                         (groups : list Z)
| SendToSeer (multithreaded : bool) (group_ids : list Z)
             (nodestore_results : pyval) (project_id : Z)
             (seer_response : gmap string pyval)
| CaptureException (msg : string)
| UpdateGroups (project : Project.t) (seer_response : gmap string pyval)
               (group_ids : list Z) (group_hashes_dict : gmap Z pyval)
| GetProjectForBatch (last_processed_project_index : Z)
                     (cohort_projects : list Z)
| ApplyAsync (args : TaskArgs) (propagate_traces : bool).

Inductive exn : Type :=
| AssertionError.

Inductive result (A : Type) : Type :=
| Returned (a : A)
| Raised (e : exn).
Arguments Returned {A} a.
Arguments Raised {A} e.

(** A computation: the calls made so far and how it ended. *)
Definition task (A : Type) : Type := list event * result A.

#[global] Instance task_ret : MRet task := λ A a, ([], Returned a).

#[global] Instance task_bind : MBind task := λ A B f m,
  match m with
  | (tr, Returned a) => let '(tr', r) := f a in (tr ++ tr', r)
  | (tr, Raised e) => (tr, Raised e)
  end.

Definition emit (e : event) : task unit := ([e], Returned ()).
Definition raise {A : Type} (e : exn) : task A := ([], Raised e).

(** A collaborator call: record it, continue with what it returned. *)
Definition call {A : Type} (e : event) (a : A) : task A := ([e], Returned a).

(** [assert x is not None], giving the value that [x] holds. *)
Definition assert_is_not_none {A : Type} (x : option A) : task A :=
  match x with
  | Some v => mret v
  | None => raise AssertionError
  end.

Definition trace {A : Type} (m : task A) : list event := m.1.
Definition outcome {A : Type} (m : task A) : result A := m.2.

(** ** Trace predicates *)

Definition is_apply_async (e : event) : bool :=
  match e with ApplyAsync _ _ => true | _ => false end.
Definition is_update_groups (e : event) : bool :=
  match e with UpdateGroups _ _ _ _ => true | _ => false end.
Definition is_send_to_seer (e : event) : bool :=
  match e with SendToSeer _ _ _ _ _ => true | _ => false end.
Definition is_delete (e : event) : bool :=
  match e with DeleteSeerGroupingRecords _ => true | _ => false end.
Definition is_batch_selection (e : event) : bool :=
  match e with GetCurrentBatchGroupsFromPostgres _ _ _ _ => true | _ => false end.
Definition is_event_fetch (e : event) : bool :=
  match e with
  | GetDataFromSnuba _ _ | FilterSnubaResults _ _ _
  | GetEventsFromNodestore _ _ _ => true
  | _ => false
  end.
Definition is_capture_exception (e : event) : bool :=
  match e with CaptureException _ => true | _ => false end.

(** No event of the trace satisfies [p]. *)
Definition never (p : event → bool) (tr : list event) : Prop :=
  forallb (λ e, negb (p e)) tr = true.

(** ** The continuation scheduler *)

(** [cohort_projects] of [call_next_backfill]: a cohort name is resolved
    through the settings map (an unknown name gives the empty list), a list is
    used as it is.  [None] never gets here: it is falsy. *)
Definition cohort_projects_of (env : Env) (c : Cohort) : list Z :=
  match c with
  | CohortName name => default [] (SIMILARITY_BACKFILL_COHORT_MAP env !! name)
  | CohortIds project_ids => project_ids
  | CohortNone => []
  end.

Definition call_next_backfill (env : Env)
    (last_processed_group_id : option Z) (project_id : Z)
    (last_processed_project_index : Z) (c : Cohort)
    (od : bool) (ei : bool) : task unit :=
  match last_processed_group_id with
  | Some group_id =>
      emit (Log "calling next backfill task");;
      emit (ApplyAsync
              {| current_project_id := project_id;
                 last_processed_group_id_input := Some group_id;
                 cohort := c;
                 last_processed_project_index_input :=
                   Some last_processed_project_index;
                 only_delete := od;
                 enable_ingestion := ei |} false)
  | None =>
      if negb (cohort_truthy c) then
        emit (Log "backfill finished, no cohort")
      else
        let cohort_projects := cohort_projects_of env c in
        '(batch_project_id, next_project_index) ←
          call (GetProjectForBatch last_processed_project_index cohort_projects)
               (get_project_for_batch env last_processed_project_index
                                      cohort_projects);
        match batch_project_id with
        | None => emit (Log "reached the end of the project list")
        | Some next_project_id =>
            emit (ApplyAsync
                    {| current_project_id := next_project_id;
                       last_processed_group_id_input := None;
                       cohort := c;
                       last_processed_project_index_input := next_project_index;
                       only_delete := od;
                       enable_ingestion := ei |} false)
        end
  end.

(** ** The task *)

(** The part of the task after the batch has been selected and found
    non-empty: event fetching, the similarity call, write-back and
    continuation. *)
Definition process_batch (env : Env) (a : TaskArgs) (project : Project.t)
    (last_processed_project_index : Z)
    (groups_to_backfill_with_no_embedding : list Z)
    (batch_end_id : option Z) : task unit :=
  let next_batch :=
    call_next_backfill env batch_end_id (current_project_id a)
      last_processed_project_index (cohort a) false (enable_ingestion a) in
  snuba_results ←
    call (GetDataFromSnuba project groups_to_backfill_with_no_embedding)
         (get_data_from_snuba env project groups_to_backfill_with_no_embedding);
  '(filtered_snuba_results, has_snuba_row) ←
    call (FilterSnubaResults snuba_results
            groups_to_backfill_with_no_embedding project)
         (filter_snuba_results env snuba_results
            groups_to_backfill_with_no_embedding project);
  if (length has_snuba_row =? 0)%nat then next_batch
  else
    '(nodestore_results, group_hashes_dict) ←
      call (GetEventsFromNodestore project filtered_snuba_results has_snuba_row)
           (get_events_from_nodestore env project filtered_snuba_results
              has_snuba_row);
    if bool_decide (group_hashes_dict = ∅) then next_batch
    else
      let has_snuba_row_and_nodestore_row :=
        filter (λ group_id, is_Some (group_hashes_dict !! group_id))
               has_snuba_row in
      seer_response ←
        (if 1 <? opt_backfill_seer_threads env then
           let r := send_group_and_stacktrace_to_seer_multithreaded env
                      has_snuba_row_and_nodestore_row nodestore_results
                      (Project.id project) in
           call (SendToSeer true has_snuba_row_and_nodestore_row
                   nodestore_results (Project.id project) r) r
         else
           let r := send_group_and_stacktrace_to_seer env
                      has_snuba_row_and_nodestore_row nodestore_results
                      (Project.id project) in
           call (SendToSeer false has_snuba_row_and_nodestore_row
                   nodestore_results (Project.id project) r) r);
      if negb (truthy (dict_get seer_response "success")) then
        emit (Log "backfill_seer_grouping_records.seer_failed");;
        emit (CaptureException "Seer failed during backfill")
      else
        emit (UpdateGroups project seer_response
                has_snuba_row_and_nodestore_row group_hashes_dict);;
        emit (Log "about to call next backfill");;
        next_batch.

Definition backfill_seer_grouping_records_for_project
    (env : Env) (a : TaskArgs) : task unit :=
  if opt_killswitch_enabled env || killswitch_enabled env (current_project_id a)
  then emit (Log "backfill_seer_grouping_records.killswitch_enabled")
  else
    emit (Log "backfill_seer_grouping_records");;
    init ←
      call (InitializeBackfill (current_project_id a)
              (last_processed_group_id_input a)
              (last_processed_project_index_input a))
           (initialize_backfill env (current_project_id a)
              (last_processed_group_id_input a)
              (last_processed_project_index_input a));
    match init with
    | InitFeatureError =>
        emit (Log "backfill_seer_grouping_records.no_feature")
    | InitProjectDoesNotExist =>
        emit (Log "backfill_seer_grouping_records.project_does_not_exist");;
        project_index ←
          assert_is_not_none (last_processed_project_index_input a);
        call_next_backfill env None (current_project_id a) project_index
          (cohort a) (only_delete a) (enable_ingestion a)
    | InitOk project last_processed_group_id last_processed_project_index =>
        if only_delete a then
          emit (DeleteSeerGroupingRecords (current_project_id a));;
          emit (Log "backfill_seer_grouping_records.deleted_all_records");;
          call_next_backfill env None (current_project_id a)
            last_processed_project_index (cohort a) (only_delete a)
            (enable_ingestion a)
        else
          let batch_size := opt_backfill_batch_size env in
          '(groups_to_backfill_with_no_embedding, batch_end_id) ←
            call (GetCurrentBatchGroupsFromPostgres project
                    last_processed_group_id batch_size (enable_ingestion a))
                 (get_current_batch_groups_from_postgres env project
                    last_processed_group_id batch_size (enable_ingestion a));
          if (length groups_to_backfill_with_no_embedding =? 0)%nat then
            call_next_backfill env batch_end_id (current_project_id a)
              last_processed_project_index (cohort a) false
              (enable_ingestion a)
          else
            process_batch env a project last_processed_project_index
              groups_to_backfill_with_no_embedding batch_end_id
    end.

(** ** Statements shared by the theorems *)

(** Neither killswitch is tripped: the invocation gets past the killswitch gate. *)
Definition gate_open (env : Env) (a : TaskArgs) : Prop :=
  opt_killswitch_enabled env = false
  ∧ killswitch_enabled env (current_project_id a) = false.

(** The calls every invocation past the killswitch gate starts with. *)
Definition prologue (a : TaskArgs) : list event :=
  [Log "backfill_seer_grouping_records";
   InitializeBackfill (current_project_id a) (last_processed_group_id_input a)
     (last_processed_project_index_input a)].

(** The missing-project recovery: the invocation returns normally, and what
    it does after logging is exactly [call_next_backfill] with a null group
    cursor and the project index it was given. *)
Definition recovers_from_missing_project (env : Env) (a : TaskArgs) : Prop :=
  ∃ project_index,
    last_processed_project_index_input a = Some project_index
    ∧ backfill_seer_grouping_records_for_project env a
      = (prologue a
         ++ [Log "backfill_seer_grouping_records.project_does_not_exist"]
         ++ trace (call_next_backfill env None (current_project_id a)
                     project_index (cohort a) (only_delete a)
                     (enable_ingestion a)),
         Returned ()).

(** The invocation selects a batch: it is past the killswitch gate, project lookup
    gave [project] and the project index, [only_delete] is off, and the
    batch selector returned [groups] and [batch_end_id]. *)
Definition selects_batch (env : Env) (a : TaskArgs) (project : Project.t)
    (project_index : Z) (cursor : option Z) (groups : list Z)
    (batch_end_id : option Z) : Prop :=
  gate_open env a
  ∧ initialize_backfill env (current_project_id a)
      (last_processed_group_id_input a)
      (last_processed_project_index_input a)
    = InitOk project cursor project_index
  ∧ only_delete a = false
  ∧ get_current_batch_groups_from_postgres env project cursor
      (opt_backfill_batch_size env) (enable_ingestion a)
    = (groups, batch_end_id).

(** The event-index phase on [groups]: the rows kept by
    [filter_snuba_results] and the groups that have one. *)
Definition snuba_phase (env : Env) (project : Project.t) (groups : list Z)
    : pyval * list Z :=
  filter_snuba_results env (get_data_from_snuba env project groups) groups
    project.

(** The groups with a snuba row that also have an entry in
    [group_hashes_dict]. *)
Definition with_nodestore_row (group_hashes_dict : gmap Z pyval)
    (has_snuba_row : list Z) : list Z :=
  filter (λ group_id, is_Some (group_hashes_dict !! group_id)) has_snuba_row.

(** The calls made up to and including batch selection. *)
Definition selection (a : TaskArgs) (project : Project.t) (cursor : option Z)
    (batch_size : Z) : list event :=
  prologue a
  ++ [GetCurrentBatchGroupsFromPostgres project cursor batch_size
        (enable_ingestion a)].

(** The calls of the event-index phase. *)
Definition snuba_calls (env : Env) (project : Project.t) (groups : list Z)
    : list event :=
  [GetDataFromSnuba project groups;
   FilterSnubaResults (get_data_from_snuba env project groups) groups project].

(** The sender the configuration selects, and its tag in the trace. *)
Definition multithreaded_selected (env : Env) : bool :=
  1 <? opt_backfill_seer_threads env.

Definition selected_sender (env : Env) : list Z → pyval → Z → gmap string pyval :=
  if multithreaded_selected env
  then send_group_and_stacktrace_to_seer_multithreaded env
  else send_group_and_stacktrace_to_seer env.

(** How a run ends once the similarity service has answered: the failure is
    logged and reported, or the results are written back and the scheduler
    takes over with the batch's end id. *)
Definition after_seer (env : Env) (a : TaskArgs) (project : Project.t)
    (project_index : Z) (batch_end_id : option Z) (group_ids : list Z)
    (group_hashes_dict : gmap Z pyval) (seer_response : gmap string pyval)
    : list event :=
  if truthy (dict_get seer_response "success") then
    [UpdateGroups project seer_response group_ids group_hashes_dict;
     Log "about to call next backfill"]
    ++ trace (call_next_backfill env batch_end_id (current_project_id a)
                project_index (cohort a) false (enable_ingestion a))
  else
    [Log "backfill_seer_grouping_records.seer_failed";
     CaptureException "Seer failed during backfill"].

(** The paths through the task, one constructor per [return] of the source
    (and one for the failed assertion), each with the tests that lead to it
    and the calls made on the way. *)
Inductive path (env : Env) (a : TaskArgs)
    : list event → result unit → Prop :=
| path_killswitch :
    opt_killswitch_enabled env
    || killswitch_enabled env (current_project_id a) = true →
    path env a [Log "backfill_seer_grouping_records.killswitch_enabled"]
      (Returned ())
| path_no_feature :
    gate_open env a →
    initialize_backfill env (current_project_id a)
      (last_processed_group_id_input a)
      (last_processed_project_index_input a) = InitFeatureError →
    path env a
      (prologue a ++ [Log "backfill_seer_grouping_records.no_feature"])
      (Returned ())
| path_missing_project_asserts :
    gate_open env a →
    initialize_backfill env (current_project_id a)
      (last_processed_group_id_input a)
      (last_processed_project_index_input a) = InitProjectDoesNotExist →
    last_processed_project_index_input a = None →
    path env a
      (prologue a
       ++ [Log "backfill_seer_grouping_records.project_does_not_exist"])
      (Raised AssertionError)
| path_missing_project_recovers project_index :
    gate_open env a →
    initialize_backfill env (current_project_id a)
      (last_processed_group_id_input a)
      (last_processed_project_index_input a) = InitProjectDoesNotExist →
    last_processed_project_index_input a = Some project_index →
    path env a
      (prologue a
       ++ [Log "backfill_seer_grouping_records.project_does_not_exist"]
       ++ trace (call_next_backfill env None (current_project_id a)
                   project_index (cohort a) (only_delete a)
                   (enable_ingestion a)))
      (Returned ())
| path_only_delete project cursor project_index :
    gate_open env a →
    initialize_backfill env (current_project_id a)
      (last_processed_group_id_input a)
      (last_processed_project_index_input a)
    = InitOk project cursor project_index →
    only_delete a = true →
    path env a
      (prologue a
       ++ [DeleteSeerGroupingRecords (current_project_id a);
           Log "backfill_seer_grouping_records.deleted_all_records"]
       ++ trace (call_next_backfill env None (current_project_id a)
                   project_index (cohort a) true (enable_ingestion a)))
      (Returned ())
| path_empty_batch project project_index cursor batch_end_id :
    selects_batch env a project project_index cursor [] batch_end_id →
    path env a
      (selection a project cursor (opt_backfill_batch_size env)
       ++ trace (call_next_backfill env batch_end_id (current_project_id a)
                   project_index (cohort a) false (enable_ingestion a)))
      (Returned ())
| path_no_snuba_rows project project_index cursor groups batch_end_id
    filtered :
    selects_batch env a project project_index cursor groups batch_end_id →
    groups ≠ [] →
    snuba_phase env project groups = (filtered, []) →
    path env a
      (selection a project cursor (opt_backfill_batch_size env)
       ++ snuba_calls env project groups
       ++ trace (call_next_backfill env batch_end_id (current_project_id a)
                   project_index (cohort a) false (enable_ingestion a)))
      (Returned ())
| path_no_nodestore_rows project project_index cursor groups batch_end_id
    filtered has_snuba_row snapshots :
    selects_batch env a project project_index cursor groups batch_end_id →
    groups ≠ [] →
    snuba_phase env project groups = (filtered, has_snuba_row) →
    has_snuba_row ≠ [] →
    get_events_from_nodestore env project filtered has_snuba_row
    = (snapshots, ∅) →
    path env a
      (selection a project cursor (opt_backfill_batch_size env)
       ++ snuba_calls env project groups
       ++ [GetEventsFromNodestore project filtered has_snuba_row]
       ++ trace (call_next_backfill env batch_end_id (current_project_id a)
                   project_index (cohort a) false (enable_ingestion a)))
      (Returned ())
| path_seer project project_index cursor groups batch_end_id
    filtered has_snuba_row snapshots group_hashes_dict :
    selects_batch env a project project_index cursor groups batch_end_id →
    groups ≠ [] →
    snuba_phase env project groups = (filtered, has_snuba_row) →
    has_snuba_row ≠ [] →
    get_events_from_nodestore env project filtered has_snuba_row
    = (snapshots, group_hashes_dict) →
    group_hashes_dict ≠ ∅ →
    let group_ids := with_nodestore_row group_hashes_dict has_snuba_row in
    let seer_response :=
      selected_sender env group_ids snapshots (Project.id project) in
    path env a
      (selection a project cursor (opt_backfill_batch_size env)
       ++ snuba_calls env project groups
       ++ [GetEventsFromNodestore project filtered has_snuba_row;
           SendToSeer (multithreaded_selected env) group_ids snapshots
             (Project.id project) seer_response]
       ++ after_seer env a project project_index batch_end_id group_ids
            group_hashes_dict seer_response)
      (Returned ()).

(** The calls that only read or log: what an invocation does before it
    deletes, scores, writes back or schedules. *)
Definition is_query (e : event) : bool :=
  match e with
  | Log _ | InitializeBackfill _ _ _
  | GetCurrentBatchGroupsFromPostgres _ _ _ _
  | GetDataFromSnuba _ _ | FilterSnubaResults _ _ _
  | GetEventsFromNodestore _ _ _ => true
  | _ => false
  end.

(** The same environment with another value of the
    [similarity.backfill_seer_threads] option. *)
Definition with_threads (env : Env) (threads : Z) : Env :=
  {| opt_killswitch_enabled := opt_killswitch_enabled env;
     opt_backfill_batch_size := opt_backfill_batch_size env;
     opt_backfill_seer_threads := threads;
     SIMILARITY_BACKFILL_COHORT_MAP := SIMILARITY_BACKFILL_COHORT_MAP env;
     killswitch_enabled := killswitch_enabled env;
     initialize_backfill := initialize_backfill env;
     get_current_batch_groups_from_postgres :=
       get_current_batch_groups_from_postgres env;
     get_data_from_snuba := get_data_from_snuba env;
     filter_snuba_results := filter_snuba_results env;
     get_events_from_nodestore := get_events_from_nodestore env;
     send_group_and_stacktrace_to_seer :=
       send_group_and_stacktrace_to_seer env;
     send_group_and_stacktrace_to_seer_multithreaded :=
       send_group_and_stacktrace_to_seer_multithreaded env;
     get_project_for_batch := get_project_for_batch env |}.

(** ** The two similarity senders *)

(** Modelled from the spec: [send_group_and_stacktrace_to_seer] and
    [send_group_and_stacktrace_to_seer_multithreaded] live in
    [embeddings_grouping.utils], which is not among the embedded sources.
    The spec (4.4, 5) gives the contract
    [send(groupIds, snapshots, projectId) -> {success, results, reason}]:
    [results] maps group ids to outcomes, and when the service reports a
    failure [success] is false and [reason] is populated.  The sequential
    mode makes one call per group.  The worker-pool mode fans out one call
    per group; a worker writes nothing but its own entry of a per-group
    output mapping keyed by group id; the pool waits for all workers, and one
    failed worker makes the overall call fail.  The order in which the
    workers complete is not determined: it is a parameter of the pool
    sender.  The spec does not say which failure is reported when several
    calls fail: both senders report the one of the first failed group of the
    list. *)
Inductive ScoreResult : Type :=
| Scored (similarity_outcome : pyval)
| ScoreFailed (why : string).

Record SendResult : Type := {
  success : bool;
  results : gmap Z pyval;
  reason : option string;
}.

Definition nothing_sent : SendResult :=
  {| success := true; results := ∅; reason := None |}.

(** Joining one group's result into the response: an outcome is stored under
    the group id; a failure clears [success] and populates [reason] (the
    first reported failure is kept). *)
Definition join (acc : SendResult) (group_id : Z) (r : ScoreResult)
    : SendResult :=
  match r with
  | Scored similarity_outcome =>
      {| success := success acc;
         results := <[group_id := similarity_outcome]> (results acc);
         reason := reason acc |}
  | ScoreFailed why =>
      {| success := false;
         results := results acc;
         reason := Some (default why (reason acc)) |}
  end.

(** The outcome a per-group result holds, if the call did not fail. *)
Definition outcome_of (r : ScoreResult) : option pyval :=
  match r with
  | Scored similarity_outcome => Some similarity_outcome
  | ScoreFailed _ => None
  end.

(** The failure of the first group of the list whose entry of the per-group
    output mapping is a failure. *)
Fixpoint first_failure (outputs : gmap Z ScoreResult) (group_ids : list Z)
    : option string :=
  match group_ids with
  | [] => None
  | group_id :: rest =>
      match outputs !! group_id with
      | Some (ScoreFailed why) => Some why
      | _ => first_failure outputs rest
      end
  end.

Section Senders.
(** The external similarity service, one group at a time. *)
Variable score : Z → pyval → Z → ScoreResult.

(** One sequential step: the group's call is made and its result joined. *)
Definition call_and_join (snapshots : pyval) (project_id : Z)
    (acc : SendResult) (group_id : Z) : SendResult :=
  join acc group_id (score group_id snapshots project_id).

(** Sequential mode: one call per group, in list order, each result joined as
    it comes back. *)
Definition send_sequential (group_ids : list Z) (snapshots : pyval)
    (project_id : Z) : SendResult :=
  foldl (call_and_join snapshots project_id) nothing_sent group_ids.

(** The per-group output mapping of the pool: each worker makes its group's
    call and writes the result under its group id, in the order the workers
    complete. *)
Definition per_group_outputs (completion_order : list Z) (snapshots : pyval)
    (project_id : Z) : gmap Z ScoreResult :=
  foldl (λ outputs group_id,
           <[group_id := score group_id snapshots project_id]> outputs)
        ∅ completion_order.

(** Worker-pool mode: once all workers are done, the response is read off
    the per-group output mapping. *)
Definition send_worker_pool (group_ids completion_order : list Z)
    (snapshots : pyval) (project_id : Z) : SendResult :=
  let outputs := per_group_outputs completion_order snapshots project_id in
  let failure := first_failure outputs group_ids in
  {| success := bool_decide (failure = None);
     results := omap outcome_of outputs;
     reason := failure |}.

(** The service scored the group (its call did not fail). *)
Definition scored (snapshots : pyval) (project_id : Z) (group_id : Z)
    : bool :=
  match score group_id snapshots project_id with
  | Scored _ => true
  | ScoreFailed _ => false
  end.
End Senders.

(** The response dict of a [SendResult], as the task reads it: [success]
    under ["success"], the reason (when there is one) under ["reason"], and
    the outcomes under ["results"], keyed by the group ids in decimal. *)
Definition response_of (r : SendResult) : gmap string pyval :=
  let response : gmap string pyval :=
    {[ "success" := PyBool (success r);
       "results" := PyDict (kmap pretty (results r)) ]} in
  match reason r with
  | Some why => <["reason" := PyStr why]> response
  | None => response
  end.

(** The same environment with other senders. *)
Definition with_senders (env : Env)
    (sequential multithreaded : list Z → pyval → Z → gmap string pyval)
    : Env :=
  {| opt_killswitch_enabled := opt_killswitch_enabled env;
     opt_backfill_batch_size := opt_backfill_batch_size env;
     opt_backfill_seer_threads := opt_backfill_seer_threads env;
     SIMILARITY_BACKFILL_COHORT_MAP := SIMILARITY_BACKFILL_COHORT_MAP env;
     killswitch_enabled := killswitch_enabled env;
     initialize_backfill := initialize_backfill env;
     get_current_batch_groups_from_postgres :=
       get_current_batch_groups_from_postgres env;
     get_data_from_snuba := get_data_from_snuba env;
     filter_snuba_results := filter_snuba_results env;
     get_events_from_nodestore := get_events_from_nodestore env;
     send_group_and_stacktrace_to_seer := sequential;
     send_group_and_stacktrace_to_seer_multithreaded := multithreaded;
     get_project_for_batch := get_project_for_batch env |}.

(** An environment whose two senders are the ones above, over the service
    [score]; [completion_order] gives, for each list of groups sent, the
    order in which the pool's workers complete. *)
Definition with_modelled_senders (env : Env)
    (score : Z → pyval → Z → ScoreResult)
    (completion_order : list Z → list Z) : Env :=
  with_senders env
    (λ group_ids snapshots project_id,
       response_of (send_sequential score group_ids snapshots project_id))
    (λ group_ids snapshots project_id,
       response_of
         (send_worker_pool score group_ids (completion_order group_ids)
            snapshots project_id)).

(** A call with the mark of which sender made it taken off. *)
Definition forget_mode (e : event) : event :=
  match e with
  | SendToSeer _ group_ids snapshots project_id seer_response =>
      SendToSeer false group_ids snapshots project_id seer_response
  | _ => e
  end.

(** Modelled from the spec: [get_project_for_batch] of
    [embeddings_grouping.utils] is not among the embedded sources.  The spec
    has the scheduler advance [last_processed_project_index] and pick the
    project at the new index, and produce no project once the index runs past
    the end of the list.  It is used below to build example environments
    only. *)
Definition next_project_in_cohort (last_processed_project_index : Z)
    (cohort_projects : list Z) : option Z * option Z :=
  let next_project_index := last_processed_project_index + 1 in
  if next_project_index <? 0 then (None, None)
  else match cohort_projects !! Z.to_nat next_project_index with
       | Some next_project_id => (Some next_project_id, Some next_project_index)
       | None => (None, None)
       end.

(** ** Example environments *)

Module Example.
(** Groups of each project, by id, and whether each store has a row. *)
Definition groups_of (project_id : Z) : list Z :=
  if project_id =? 10 then [1; 2; 3; 4; 5] else
  if project_id =? 12 then [7; 8] else
  if project_id =? 13 then [9] else [].

Definition has_snuba_row (group_id : Z) : bool :=
  negb (group_id =? 2) && negb (group_id =? 7) && negb (group_id =? 8).

Definition has_nodestore_row (group_id : Z) : bool :=
  negb (group_id =? 3).

Definition select_batch (project : Project.t) (cursor : option Z)
    (batch_size : Z) (_ : bool) : list Z * option Z :=
  let page :=
    take (Z.to_nat batch_size)
         (filter (λ g, default (-1) cursor < g)
                 (groups_of (Project.id project))) in
  (page, last page).

Definition hashes_of (group_ids : list Z) : gmap Z pyval :=
  list_to_map
    ((λ g, (g, PyStr "hash")) <$> filter (λ g, has_nodestore_row g = true)
                                         group_ids).

Definition respond (group_ids : list Z) (_ : pyval) (project_id : Z)
    : gmap string pyval :=
  if project_id =? 13
  then {[ "success" := PyBool false; "reason" := PyStr "timeout" ]}
  else {[ "success" := PyBool true ]}.

(** Project 404 has been deleted; project 13's batches time out in the
    similarity service. *)
Definition env : Env :=
  {| opt_killswitch_enabled := false;
     opt_backfill_batch_size := 2;
     opt_backfill_seer_threads := 1;
     SIMILARITY_BACKFILL_COHORT_MAP := {[ "cohort_a" := [10; 404; 12] ]};
     killswitch_enabled := λ project_id, project_id =? 99;
     initialize_backfill := λ project_id group_id project_index,
       if project_id =? 404 then InitProjectDoesNotExist
       else InitOk {| Project.id := project_id |} group_id
                   (default 0 project_index);
     get_current_batch_groups_from_postgres := select_batch;
     get_data_from_snuba := λ _ group_ids, PyList (PyInt <$> group_ids);
     filter_snuba_results := λ snuba_results group_ids _,
       (snuba_results, filter (λ g, has_snuba_row g = true) group_ids);
     get_events_from_nodestore := λ _ _ group_ids,
       (PyList (PyInt <$> group_ids), hashes_of group_ids);
     send_group_and_stacktrace_to_seer := respond;
     send_group_and_stacktrace_to_seer_multithreaded := respond;
     get_project_for_batch := next_project_in_cohort |}.

Definition args (project_id : Z) (cursor : option Z) (c : Cohort)
    (project_index : option Z) (od : bool) : TaskArgs :=
  {| current_project_id := project_id;
     last_processed_group_id_input := cursor;
     cohort := c;
     last_processed_project_index_input := project_index;
     only_delete := od;
     enable_ingestion := false |}.

(** One group's similarity call: group 3 fails. *)
Definition score (group_id : Z) (_ : pyval) (_ : Z) : ScoreResult :=
  if group_id =? 3 then ScoreFailed "timeout"
  else Scored (PyInt (group_id * 100)).
End Example.

(** ** Chains of invocations *)

(** What the scheduler itself does: it logs, asks for the next project and
    enqueues. *)
Definition is_scheduler_event (e : event) : bool :=
  match e with
  | Log _ | GetProjectForBatch _ _ | ApplyAsync _ _ => true
  | _ => false
  end.

(** The task queue runs the task on the arguments given to [apply_async]:
    an invocation with arguments [a] leads to one with arguments [a'] when
    the run on [a] enqueues [a']. *)
Definition enqueues (env : Env) (a a' : TaskArgs) : Prop :=
  ∃ propagate_traces,
    ApplyAsync a' propagate_traces
    ∈ trace (backfill_seer_grouping_records_for_project env a).

(** The arguments [call_next_backfill] enqueues for the same project. *)
Definition next_batch_args (a : TaskArgs) (project_index : Z)
    (group_id : Z) : TaskArgs :=
  {| current_project_id := current_project_id a;
     last_processed_group_id_input := Some group_id;
     cohort := cohort a;
     last_processed_project_index_input := Some project_index;
     only_delete := false;
     enable_ingestion := enable_ingestion a |}.

(** The three places where the task calls [call_next_backfill], with the
    group cursor and project index it passes: the missing-project recovery,
    the [only_delete] mode, and the end of a batch. *)
Definition hands_over (env : Env) (a : TaskArgs) (group_cursor : option Z)
    (project_index : Z) : Prop :=
  (group_cursor = None
   ∧ initialize_backfill env (current_project_id a)
       (last_processed_group_id_input a)
       (last_processed_project_index_input a) = InitProjectDoesNotExist
   ∧ last_processed_project_index_input a = Some project_index)
  ∨ (group_cursor = None
     ∧ only_delete a = true
     ∧ ∃ project cursor,
         initialize_backfill env (current_project_id a)
           (last_processed_group_id_input a)
           (last_processed_project_index_input a)
         = InitOk project cursor project_index)
  ∨ (∃ project cursor groups,
       selects_batch env a project project_index cursor groups group_cursor).

(** The same environment with another [initialize_backfill]. *)
Definition with_initialize_backfill (env : Env)
    (init : Z → option Z → option Z → InitResult) : Env :=
  {| opt_killswitch_enabled := opt_killswitch_enabled env;
     opt_backfill_batch_size := opt_backfill_batch_size env;
     opt_backfill_seer_threads := opt_backfill_seer_threads env;
     SIMILARITY_BACKFILL_COHORT_MAP := SIMILARITY_BACKFILL_COHORT_MAP env;
     killswitch_enabled := killswitch_enabled env;
     initialize_backfill := init;
     get_current_batch_groups_from_postgres :=
       get_current_batch_groups_from_postgres env;
     get_data_from_snuba := get_data_from_snuba env;
     filter_snuba_results := filter_snuba_results env;
     get_events_from_nodestore := get_events_from_nodestore env;
     send_group_and_stacktrace_to_seer :=
       send_group_and_stacktrace_to_seer env;
     send_group_and_stacktrace_to_seer_multithreaded :=
       send_group_and_stacktrace_to_seer_multithreaded env;
     get_project_for_batch := get_project_for_batch env |}.

(** The example environment, except that project 77 lacks the feature. *)
Definition example_env_without_feature : Env :=
  with_initialize_backfill Example.env
    (λ project_id group_id project_index,
       if project_id =? 77 then InitFeatureError
       else initialize_backfill Example.env project_id group_id
              project_index).




(** The example environment with the two senders of the spec over
    [Example.score]; the pool's workers complete in the reverse of the order
    in which the groups were handed out. *)
Definition example_env_with_modelled_senders : Env :=
  with_modelled_senders Example.env Example.score (@rev Z).

(** ** Proof support *)

(** Unfolds a run into the list of its calls, splitting on every test the
    code makes. *)
Ltac run_task :=
  unfold backfill_seer_grouping_records_for_project, process_batch,
    call_next_backfill, assert_is_not_none, trace, outcome, never,
    mbind, task_bind, mret, task_ret, emit, call, raise in *;
  repeat (simplify_eq /=; try case_match).

#[local] Arguments call_next_backfill : simpl never.

Lemma call_next_backfill_returns env g pid idx c od ei :
  outcome (call_next_backfill env g pid idx c od ei) = Returned ().
Proof. by run_task. Qed.

Lemma never_app p tr1 tr2 :
  never p (tr1 ++ tr2) ↔ never p tr1 ∧ never p tr2.
Proof. unfold never. rewrite forallb_app. apply andb_true_iff. Qed.

(** With a null group cursor the scheduler takes the exhaustion transition:
    it enqueues nothing, or enqueues one task for another project, again with a
    null group cursor and with the flags it was given. *)
Lemma call_next_backfill_exhausted env pid idx c od ei :
  never is_apply_async (trace (call_next_backfill env None pid idx c od ei))
  ∨ ∃ next_project_id next_project_index,
      filter (λ e, is_apply_async e = true)
             (trace (call_next_backfill env None pid idx c od ei))
      = [ApplyAsync {| current_project_id := next_project_id;
                       last_processed_group_id_input := None;
                       cohort := c;
                       last_processed_project_index_input := next_project_index;
                       only_delete := od;
                       enable_ingestion := ei |} false].
Proof. run_task; eauto. Qed.

(** C3. When the global backfill killswitch option is enabled or the
    per-project killswitch predicate holds for [current_project_id], the task
    is a no-op: its only call is the log line; it selects no batch, deletes
    nothing, makes no similarity call, writes nothing back and schedules no
    continuation, whatever its other arguments ([only_delete] included). *)
Theorem killswitch_is_noop (env : Env) (a : TaskArgs) :
  opt_killswitch_enabled env = true
  ∨ killswitch_enabled env (current_project_id a) = true →
  backfill_seer_grouping_records_for_project env a
  = ([Log "backfill_seer_grouping_records.killswitch_enabled"], Returned ())
  ∧ never is_batch_selection
      (trace (backfill_seer_grouping_records_for_project env a))
  ∧ never is_delete (trace (backfill_seer_grouping_records_for_project env a))
  ∧ never is_send_to_seer
      (trace (backfill_seer_grouping_records_for_project env a))
  ∧ never is_update_groups
      (trace (backfill_seer_grouping_records_for_project env a))
  ∧ never is_apply_async
      (trace (backfill_seer_grouping_records_for_project env a)).
Proof.
  intros Hkill.
  assert (opt_killswitch_enabled env
          || killswitch_enabled env (current_project_id a) = true) as Hgate.
  { destruct Hkill as [-> | ->]; [done | apply orb_true_r]. }
  unfold backfill_seer_grouping_records_for_project, trace, never.
  by rewrite Hgate.
Qed.


Lemma killswitch_is_noop_witness :
  backfill_seer_grouping_records_for_project Example.env
    (Example.args 99 None (CohortName "cohort_a") (Some 0) true)
  = ([Log "backfill_seer_grouping_records.killswitch_enabled"], Returned ()).
Proof.
  apply (killswitch_is_noop Example.env
           (Example.args 99 None (CohortName "cohort_a") (Some 0) true)).
  right. reflexivity.
Defined.

(** C7. With a null group cursor and a falsy cohort ([None], the empty
    string or the empty list), [call_next_backfill] logs and returns: nothing
    is enqueued, and the run is the same whatever
    [last_processed_project_index], the cohort map and the helpers are, so
    none of them is consulted. *)
Theorem no_cohort_terminates (env env' : Env) (project_id : Z)
    (project_index project_index' : Z) (c : Cohort) (od ei : bool) :
  c = CohortNone ∨ c = CohortName "" ∨ c = CohortIds [] →
  call_next_backfill env None project_id project_index c od ei
  = ([Log "backfill finished, no cohort"], Returned ())
  ∧ call_next_backfill env' None project_id project_index' c od ei
    = call_next_backfill env None project_id project_index c od ei.
Proof. by intros [-> | [-> | ->]]. Qed.

Lemma no_cohort_terminates_witness :
  call_next_backfill Example.env None 10 0 (CohortIds []) false false
  = ([Log "backfill finished, no cohort"], Returned ())
  ∧ call_next_backfill (with_threads Example.env 4) None 10 7 (CohortIds [])
      false false
    = call_next_backfill Example.env None 10 0 (CohortIds []) false false.
Proof.
  apply (no_cohort_terminates Example.env (with_threads Example.env 4) 10 0 7
           (CohortIds []) false false).
  right. right. reflexivity.
Defined.

(** C6. With a null group cursor and a (truthy) cohort, when
    [get_project_for_batch] produces no next project id for
    [last_processed_project_index] and the cohort's project list (the index
    points past the end of the list), [call_next_backfill] logs and returns:
    its only calls are the helper and the log line, and nothing is
    enqueued. *)
Theorem end_of_cohort_terminates (env : Env) (project_id project_index : Z)
    (c : Cohort) (od ei : bool) (next_project_index : option Z) :
  cohort_truthy c = true →
  get_project_for_batch env project_index (cohort_projects_of env c)
  = (None, next_project_index) →
  call_next_backfill env None project_id project_index c od ei
  = ([GetProjectForBatch project_index (cohort_projects_of env c);
      Log "reached the end of the project list"], Returned ())
  ∧ never is_apply_async
      (trace (call_next_backfill env None project_id project_index c od ei)).
Proof.
  intros Hcohort Hnext.
  unfold call_next_backfill, never, trace.
  rewrite Hcohort. simpl. rewrite Hnext. done.
Qed.

Lemma end_of_cohort_terminates_witness :
  call_next_backfill Example.env None 12 2 (CohortName "cohort_a") false false
  = ([GetProjectForBatch 2 [10; 404; 12];
      Log "reached the end of the project list"], Returned ())
  ∧ never is_apply_async
      (trace (call_next_backfill Example.env None 12 2
                (CohortName "cohort_a") false false)).
Proof.
  apply (end_of_cohort_terminates Example.env 12 2 (CohortName "cohort_a")
           false false None); reflexivity.
Defined.

(** C10. Past the killswitch gate, when project lookup raises [DoesNotExist] and
    [last_processed_project_index_input] is [None], the task raises
    [AssertionError] right after logging: [call_next_backfill] is not
    reached and nothing is enqueued.  Hence a missing project is recovered
    from only when a project index was supplied. *)
Theorem missing_project_without_index_asserts (env : Env) (a : TaskArgs) :
  gate_open env a →
  initialize_backfill env (current_project_id a)
    (last_processed_group_id_input a) (last_processed_project_index_input a)
  = InitProjectDoesNotExist →
  (last_processed_project_index_input a = None →
   backfill_seer_grouping_records_for_project env a
   = (prologue a
      ++ [Log "backfill_seer_grouping_records.project_does_not_exist"],
      Raised AssertionError))
  ∧ (outcome (backfill_seer_grouping_records_for_project env a) = Returned ()
     → is_Some (last_processed_project_index_input a)).
Proof.
  intros [Hglobal Hproject] Hinit.
  unfold backfill_seer_grouping_records_for_project, outcome, prologue.
  rewrite Hglobal, Hproject. simpl. rewrite Hinit. simpl.
  destruct (last_processed_project_index_input a) as [project_index|]; simpl.
  - split; [done | eauto].
  - split; [done | intros [=]].
Qed.

Lemma missing_project_without_index_asserts_witness :
  backfill_seer_grouping_records_for_project Example.env
    (Example.args 404 None CohortNone None false)
  = ([Log "backfill_seer_grouping_records";
      InitializeBackfill 404 None None;
      Log "backfill_seer_grouping_records.project_does_not_exist"],
     Raised AssertionError).
Proof.
  apply (missing_project_without_index_asserts Example.env
           (Example.args 404 None CohortNone None false));
    [split | ..]; reflexivity.
Defined.

(** C2, as the code has it.  Past the killswitch gate, when project lookup raises
    [DoesNotExist] and a project index was supplied
    ([last_processed_project_index_input] is not [None]), the task does not
    fail: it logs and hands over to [call_next_backfill] with a null group
    cursor, the supplied project index and the cohort and flags it was given,
    and returns normally. *)
Theorem missing_project_with_index_recovers (env : Env) (a : TaskArgs) :
  gate_open env a →
  initialize_backfill env (current_project_id a)
    (last_processed_group_id_input a) (last_processed_project_index_input a)
  = InitProjectDoesNotExist →
  is_Some (last_processed_project_index_input a) →
  recovers_from_missing_project env a
  ∧ outcome (backfill_seer_grouping_records_for_project env a) = Returned ().
Proof.
  intros [Hglobal Hproject] Hinit [project_index Hindex].
  unfold recovers_from_missing_project.
  assert (backfill_seer_grouping_records_for_project env a
          = (prologue a
             ++ [Log "backfill_seer_grouping_records.project_does_not_exist"]
             ++ trace (call_next_backfill env None (current_project_id a)
                         project_index (cohort a) (only_delete a)
                         (enable_ingestion a)),
             Returned ())) as Hrun.
  { pose proof (call_next_backfill_returns env None (current_project_id a)
                  project_index (cohort a) (only_delete a)
                  (enable_ingestion a)) as Hret.
    unfold backfill_seer_grouping_records_for_project, prologue.
    rewrite Hglobal, Hproject. simpl. rewrite Hinit, Hindex. simpl.
    unfold trace, outcome in *.
    destruct (call_next_backfill env None (current_project_id a) project_index
                (cohort a) (only_delete a) (enable_ingestion a))
      as [tr r]; simpl in *.
    by rewrite Hret. }
  split; [eauto | by rewrite Hrun].
Qed.

Lemma missing_project_with_index_recovers_witness :
  recovers_from_missing_project Example.env
    (Example.args 404 None (CohortName "cohort_a") (Some 1) false)
  ∧ outcome (backfill_seer_grouping_records_for_project Example.env
               (Example.args 404 None (CohortName "cohort_a") (Some 1) false))
    = Returned ().
Proof.
  apply (missing_project_with_index_recovers Example.env
           (Example.args 404 None (CohortName "cohort_a") (Some 1) false)).
  - split; reflexivity.
  - reflexivity.
  - exists 1. reflexivity.
Defined.

(** C2, as stated, fails: for the deleted project 404 invoked without a
    project index (the single-project, first-invocation arguments), the killswitch gate
    is open and lookup raises [DoesNotExist], yet the task raises
    [AssertionError], enqueues nothing and does not recover. *)
Lemma missing_project_without_index_fails :
  gate_open Example.env (Example.args 404 None CohortNone None false)
  ∧ initialize_backfill Example.env 404 None None = InitProjectDoesNotExist
  ∧ outcome (backfill_seer_grouping_records_for_project Example.env
               (Example.args 404 None CohortNone None false))
    = Raised AssertionError
  ∧ never is_apply_async
      (trace (backfill_seer_grouping_records_for_project Example.env
                (Example.args 404 None CohortNone None false)))
  ∧ ¬ recovers_from_missing_project Example.env
        (Example.args 404 None CohortNone None false).
Proof.
  repeat split; try reflexivity.
  intros (project_index & Hindex & _). discriminate Hindex.
Qed.

(** The scheduler only logs, asks for the next project and enqueues. *)
Lemma call_next_backfill_quiet env g pid idx c od ei :
  never is_batch_selection (trace (call_next_backfill env g pid idx c od ei))
  ∧ never is_event_fetch (trace (call_next_backfill env g pid idx c od ei))
  ∧ never is_send_to_seer (trace (call_next_backfill env g pid idx c od ei))
  ∧ never is_update_groups (trace (call_next_backfill env g pid idx c od ei))
  ∧ never is_delete (trace (call_next_backfill env g pid idx c od ei))
  ∧ never is_capture_exception
      (trace (call_next_backfill env g pid idx c od ei)).
Proof. by run_task. Qed.

(** Handing over to the scheduler: its run is its trace and a normal
    return. *)
Ltac hand_over :=
  match goal with
  | |- context [call_next_backfill ?env ?g ?pid ?idx ?c ?od ?ei] =>
      let Hret := fresh "Hret" in
      pose proof (call_next_backfill_returns env g pid idx c od ei) as Hret;
      unfold trace, outcome in *;
      destruct (call_next_backfill env g pid idx c od ei) as [? ?];
      simpl in *; subst
  end.

Lemma trace_pair {A : Type} (tr : list event) (r : result A) :
  trace (tr, r) = tr.
Proof. reflexivity. Qed.

Lemma filter_apply_async_quiet (tr tr' : list event) :
  never is_apply_async tr →
  filter (λ e, is_apply_async e = true) (tr ++ tr')
  = filter (λ e, is_apply_async e = true) tr'.
Proof.
  unfold never. intros Hquiet. rewrite filter_app.
  induction tr as [|e tr IH]; [done|].
  simpl in Hquiet. apply andb_true_iff in Hquiet as [He Htr].
  rewrite filter_cons. destruct (decide (is_apply_async e = true)) as [Hyes|_].
  - rewrite Hyes in He. done.
  - by apply IH.
Qed.

(** C5. Past the killswitch gate and project lookup, with [only_delete] true, the task
    deletes the project's grouping records, logs, and hands over to
    [call_next_backfill] with a null group cursor (the exhaustion transition).
    It selects no batch, fetches no events, makes no similarity call and
    writes nothing back; it then either enqueues nothing (termination) or
    enqueues exactly one task, for the next cohort project, with a null group
    cursor and [only_delete] still set. *)
Theorem only_delete_deletes_and_advances (env : Env) (a : TaskArgs)
    (project : Project.t) (group_id : option Z) (project_index : Z) :
  gate_open env a →
  initialize_backfill env (current_project_id a)
    (last_processed_group_id_input a) (last_processed_project_index_input a)
  = InitOk project group_id project_index →
  only_delete a = true →
  let run := backfill_seer_grouping_records_for_project env a in
  run = (prologue a
         ++ [DeleteSeerGroupingRecords (current_project_id a);
             Log "backfill_seer_grouping_records.deleted_all_records"]
         ++ trace (call_next_backfill env None (current_project_id a)
                     project_index (cohort a) true (enable_ingestion a)),
         Returned ())
  ∧ never is_batch_selection (trace run)
  ∧ never is_event_fetch (trace run)
  ∧ never is_send_to_seer (trace run)
  ∧ never is_update_groups (trace run)
  ∧ (never is_apply_async (trace run)
     ∨ ∃ next_project_id next_project_index,
         filter (λ e, is_apply_async e = true) (trace run)
         = [ApplyAsync
              {| current_project_id := next_project_id;
                 last_processed_group_id_input := None;
                 cohort := cohort a;
                 last_processed_project_index_input := next_project_index;
                 only_delete := true;
                 enable_ingestion := enable_ingestion a |} false]).
Proof.
  intros [Hglobal Hproject] Hinit Hdelete run.
  assert (run = (prologue a
         ++ [DeleteSeerGroupingRecords (current_project_id a);
             Log "backfill_seer_grouping_records.deleted_all_records"]
         ++ trace (call_next_backfill env None (current_project_id a)
                     project_index (cohort a) true (enable_ingestion a)),
         Returned ())) as Hrun.
  { unfold run, backfill_seer_grouping_records_for_project, prologue.
    rewrite Hglobal, Hproject. simpl. rewrite Hinit, Hdelete. simpl.
    by hand_over. }
  destruct (call_next_backfill_quiet env None (current_project_id a)
              project_index (cohort a) true (enable_ingestion a))
    as (Hselect & Hfetch & Hsend & Hupdate & _).
  destruct (call_next_backfill_exhausted env (current_project_id a)
              project_index (cohort a) true (enable_ingestion a))
    as [Hnone | (next_project_id & next_project_index & Hone)].
  - rewrite Hrun. unfold never, trace in *. simpl. split_and!; auto.
  - rewrite Hrun. split_and!; try (unfold never, trace in *; by simpl).
    right. exists next_project_id, next_project_index.
    rewrite <- Hone, trace_pair.
    by rewrite (filter_apply_async_quiet (prologue a)),
      (filter_apply_async_quiet [_; _]).
Qed.

Lemma only_delete_deletes_and_advances_witness :
  backfill_seer_grouping_records_for_project Example.env
    (Example.args 10 None (CohortName "cohort_a") None true)
  = ([Log "backfill_seer_grouping_records";
      InitializeBackfill 10 None None;
      DeleteSeerGroupingRecords 10;
      Log "backfill_seer_grouping_records.deleted_all_records";
      GetProjectForBatch 0 [10; 404; 12];
      ApplyAsync (Example.args 404 None (CohortName "cohort_a") (Some 1) true)
        false],
     Returned ()).
Proof.
  apply (only_delete_deletes_and_advances Example.env
           (Example.args 10 None (CohortName "cohort_a") None true)
           {| Project.id := 10 |} None 0).
  - split; reflexivity.
  - reflexivity.
  - reflexivity.
Defined.

(** ** Every run follows one of the paths *)

Lemma call_next_backfill_eta env g pid idx c od ei :
  call_next_backfill env g pid idx c od ei
  = (trace (call_next_backfill env g pid idx c od ei), Returned ()).
Proof.
  pose proof (call_next_backfill_returns env g pid idx c od ei) as Hret.
  unfold trace, outcome in *.
  destruct (call_next_backfill env g pid idx c od ei); simpl in *.
  by subst.
Qed.

Lemma backfill_path (env : Env) (a : TaskArgs) :
  path env a (trace (backfill_seer_grouping_records_for_project env a))
    (outcome (backfill_seer_grouping_records_for_project env a)).
Proof.
  unfold backfill_seer_grouping_records_for_project.
  destruct (opt_killswitch_enabled env
            || killswitch_enabled env (current_project_id a)) eqn:Hgate.
  { by apply path_killswitch. }
  apply orb_false_iff in Hgate.
  unfold mbind, task_bind, emit, call; simpl.
  destruct (initialize_backfill env (current_project_id a)
              (last_processed_group_id_input a)
              (last_processed_project_index_input a))
    as [project cursor project_index| |] eqn:Hinit; simpl.
  - destruct (only_delete a) eqn:Hdelete; simpl.
    { rewrite call_next_backfill_eta. by eapply path_only_delete. }
    destruct (get_current_batch_groups_from_postgres env project cursor
                (opt_backfill_batch_size env) (enable_ingestion a))
      as [groups batch_end_id] eqn:Hbatch; simpl.
    assert (selects_batch env a project project_index cursor groups
              batch_end_id) as Hselects by done.
    destruct groups as [|group groups]; simpl.
    { rewrite call_next_backfill_eta. by eapply path_empty_batch. }
    unfold process_batch, mbind, task_bind, emit, call; simpl.
    destruct (filter_snuba_results env _ _ _)
      as [filtered has_snuba_row] eqn:Hsnuba; simpl.
    destruct has_snuba_row as [|row rows]; simpl.
    { rewrite call_next_backfill_eta. by eapply path_no_snuba_rows. }
    destruct (get_events_from_nodestore env project filtered (row :: rows))
      as [snapshots group_hashes_dict] eqn:Hnodestore; simpl.
    case_bool_decide as Hhashes; simpl.
    { subst group_hashes_dict. rewrite call_next_backfill_eta.
      by eapply path_no_nodestore_rows. }
    pose proof (path_seer env a project project_index cursor
                  (group :: groups) batch_end_id filtered (row :: rows)
                  snapshots group_hashes_dict Hselects) as Hpath.
    unfold selected_sender, multithreaded_selected, after_seer,
      with_nodestore_row in Hpath.
    destruct (1 <? opt_backfill_seer_threads env); simpl in *.
    + destruct (truthy (dict_get _ "success")); simpl.
      * rewrite call_next_backfill_eta. by apply Hpath.
      * by apply Hpath.
    + destruct (truthy (dict_get _ "success")); simpl.
      * rewrite call_next_backfill_eta. by apply Hpath.
      * by apply Hpath.
  - by apply path_no_feature.
  - unfold assert_is_not_none.
    destruct (last_processed_project_index_input a) as [project_index|]
      eqn:Hindex; simpl; rewrite <- Hindex in Hinit |- *.
    + rewrite call_next_backfill_eta. by eapply path_missing_project_recovers.
    + by apply path_missing_project_asserts.
Qed.

Lemma never_elem_of (p : event → bool) (tr : list event) (e : event) :
  never p tr → e ∈ tr → p e = false.
Proof.
  unfold never. rewrite forallb_forall. intros Hnever He.
  apply list_elem_of_In, Hnever in He. by apply negb_true_iff.
Qed.

Lemma send_not_scheduled env g pid idx c od ei mt gids ns p r :
  SendToSeer mt gids ns p r ∉ trace (call_next_backfill env g pid idx c od ei).
Proof.
  intros Hin.
  destruct (call_next_backfill_quiet env g pid idx c od ei)
    as (_ & _ & Hquiet & _).
  by apply (never_elem_of _ _ _ Hquiet) in Hin.
Qed.

(** Splits membership in an explicit trace into its cases. *)
Ltac elem_of_trace H :=
  unfold selection, snuba_calls, prologue, after_seer in H;
  repeat first
    [ rewrite elem_of_app in H
    | rewrite elem_of_cons in H
    | rewrite elem_of_nil in H ];
  destruct_or?; try done;
  try (exfalso; eapply send_not_scheduled; eassumption).

(** ** Runs that reach the similarity call *)

(** A run that makes a similarity call has selected a non-empty batch and
    been through both phases of event fetching; the call is made on the
    groups that have a row in both stores, with the snapshots the nodestore
    returned and the project's id, by the sender the thread count selects;
    the run then ends as [after_seer] says and returns normally. *)
Lemma send_to_seer_inv (env : Env) (a : TaskArgs) (multithreaded : bool)
    (group_ids : list Z) (snapshots : pyval) (project_id : Z)
    (seer_response : gmap string pyval) :
  SendToSeer multithreaded group_ids snapshots project_id seer_response
  ∈ trace (backfill_seer_grouping_records_for_project env a) →
  ∃ project project_index cursor groups batch_end_id filtered has_snuba_row
    group_hashes_dict,
    selects_batch env a project project_index cursor groups batch_end_id
    ∧ groups ≠ []
    ∧ snuba_phase env project groups = (filtered, has_snuba_row)
    ∧ has_snuba_row ≠ []
    ∧ get_events_from_nodestore env project filtered has_snuba_row
      = (snapshots, group_hashes_dict)
    ∧ group_hashes_dict ≠ ∅
    ∧ group_ids = with_nodestore_row group_hashes_dict has_snuba_row
    ∧ project_id = Project.id project
    ∧ multithreaded = multithreaded_selected env
    ∧ seer_response = selected_sender env group_ids snapshots project_id
    ∧ backfill_seer_grouping_records_for_project env a
      = (selection a project cursor (opt_backfill_batch_size env)
         ++ snuba_calls env project groups
         ++ [GetEventsFromNodestore project filtered has_snuba_row;
             SendToSeer multithreaded group_ids snapshots project_id
               seer_response]
         ++ after_seer env a project project_index batch_end_id group_ids
              group_hashes_dict seer_response,
         Returned ()).
Proof.
  intros Hsend.
  pose proof (backfill_path env a) as Hpath.
  destruct (backfill_seer_grouping_records_for_project env a) as [tr r].
  unfold trace, outcome in Hpath, Hsend. simpl in Hpath, Hsend.
  inversion Hpath; subst; try (elem_of_trace Hsend; fail).
  assert (SendToSeer multithreaded group_ids snapshots project_id
            seer_response
          = SendToSeer (multithreaded_selected env) group_ids0 snapshots0
              (Project.id project) seer_response0) as Hsame.
  { unfold after_seer in Hsend.
    destruct (truthy (dict_get seer_response0 "success"));
      by elem_of_trace Hsend. }
  injection Hsame as -> -> -> -> ->.
  by exists project, project_index, cursor, groups, batch_end_id, filtered,
    has_snuba_row, group_hashes_dict.
Qed.

(** ** The paths exclude one another *)

Lemma path_deterministic (env : Env) (a : TaskArgs)
    (tr tr' : list event) (r r' : result unit) :
  path env a tr r → path env a tr' r' → tr = tr' ∧ r = r'.
Proof.
  intros Hpath Hpath'.
  inversion Hpath; inversion Hpath'; subst;
    unfold selects_batch, gate_open in *; destruct_and?;
    repeat match goal with x := _ |- _ => subst x end;
    try (destruct (opt_killswitch_enabled env),
           (killswitch_enabled env (current_project_id a)); discriminate);
    split; congruence.
Qed.

(** To know the run it is enough to exhibit its path. *)
Lemma path_run (env : Env) (a : TaskArgs) (tr : list event)
    (r : result unit) :
  path env a tr r →
  backfill_seer_grouping_records_for_project env a = (tr, r).
Proof.
  intros Hpath.
  destruct (path_deterministic env a _ _ _ _ (backfill_path env a) Hpath)
    as [Htrace Houtcome].
  unfold trace, outcome in *.
  destruct (backfill_seer_grouping_records_for_project env a); simpl in *.
  by subst.
Qed.

(** ** The two senders of the spec agree *)

Section SendersAgree.
Variable score : Z → pyval → Z → ScoreResult.
Variable snapshots : pyval.
Variable project_id : Z.

Abbreviation was_scored := (scored score snapshots project_id).
Abbreviation step := (call_and_join score snapshots project_id).

(** What the sequential sender has stored for a group: its outcome, once
    its call has been made and has not failed. *)
Lemma sequential_results_lookup group_ids acc g :
  results (foldl step acc group_ids) !! g
  = match score g snapshots project_id with
    | Scored similarity_outcome =>
        if decide (g ∈ group_ids) then Some similarity_outcome
        else results acc !! g
    | ScoreFailed _ => results acc !! g
    end.
Proof.
  revert acc. induction group_ids as [|g' group_ids IH]; intros acc; simpl.
  { by destruct (score g snapshots project_id). }
  rewrite IH. unfold call_and_join.
  destruct (score g snapshots project_id) as [o|why] eqn:Hg.
  - destruct (decide (g ∈ group_ids)) as [Hin|Hnotin].
    + rewrite decide_True by set_solver. done.
    + destruct (decide (g = g')) as [->|Hne].
      * rewrite decide_True by set_solver. rewrite Hg. simpl.
        by rewrite lookup_insert_eq.
      * rewrite decide_False by set_solver.
        destruct (score g' snapshots project_id); simpl; [|done].
        by rewrite lookup_insert_ne.
  - destruct (score g' snapshots project_id) as [o'|why'] eqn:Hg';
      simpl; [|done].
    rewrite lookup_insert_ne; [done|]. intros ->. congruence.
Qed.

Lemma sequential_success group_ids acc :
  success (foldl step acc group_ids)
  = success acc && forallb was_scored group_ids.
Proof.
  revert acc. induction group_ids as [|g group_ids IH]; intros acc; simpl.
  { by rewrite andb_true_r. }
  rewrite IH. unfold call_and_join, scored.
  destruct (score g snapshots project_id); simpl; [done|].
  by rewrite andb_false_r.
Qed.

(** Each worker owns its key: the per-group output mapping holds, for every
    group whose worker has completed, the result of that group's call. *)
Lemma per_group_outputs_lookup completion_order
    (outputs : gmap Z ScoreResult) g :
  foldl (λ outputs group_id,
           <[group_id := score group_id snapshots project_id]> outputs)
        outputs completion_order !! g
  = if decide (g ∈ completion_order)
    then Some (score g snapshots project_id)
    else outputs !! g.
Proof.
  revert outputs.
  induction completion_order as [|g' completion_order IH]; intros outputs;
    simpl; [done|].
  rewrite IH.
  destruct (decide (g ∈ completion_order)) as [Hin|Hnotin].
  - by rewrite decide_True by set_solver.
  - destruct (decide (g = g')) as [->|Hne].
    + rewrite decide_True by set_solver. by rewrite lookup_insert_eq.
    + rewrite decide_False by set_solver. by rewrite lookup_insert_ne.
Qed.

(** The failure the sequential sender reports is the one of the first failed
    group of the list. *)
Lemma sequential_reason (outputs : gmap Z ScoreResult) group_ids acc :
  (∀ g, g ∈ group_ids → outputs !! g = Some (score g snapshots project_id)) →
  reason (foldl step acc group_ids)
  = match reason acc with
    | Some why => Some why
    | None => first_failure outputs group_ids
    end.
Proof.
  revert acc. induction group_ids as [|g group_ids IH]; intros acc Houtputs;
    simpl.
  { by destruct (reason acc). }
  rewrite IH by (intros; apply Houtputs; set_solver).
  rewrite (Houtputs g) by set_solver. unfold call_and_join.
  destruct (score g snapshots project_id); simpl; [done|].
  by destruct (reason acc).
Qed.

Lemma first_failure_none (outputs : gmap Z ScoreResult) group_ids :
  (∀ g, g ∈ group_ids → outputs !! g = Some (score g snapshots project_id)) →
  first_failure outputs group_ids = None ↔ forallb was_scored group_ids = true.
Proof.
  induction group_ids as [|g group_ids IH]; intros Houtputs; simpl; [done|].
  rewrite (Houtputs g) by set_solver. unfold scored at 1.
  destruct (score g snapshots project_id); simpl; [|done].
  apply IH. intros; apply Houtputs; set_solver.
Qed.

Lemma first_failure_some (outputs : gmap Z ScoreResult) group_ids why :
  first_failure outputs group_ids = Some why →
  ∃ g, g ∈ group_ids ∧ outputs !! g = Some (ScoreFailed why).
Proof.
  induction group_ids as [|g group_ids IH]; simpl; [done|].
  destruct (outputs !! g) as [[o|why']|] eqn:Hg.
  - intros (g' & ? & ?)%IH. exists g'. split; [set_solver|done].
  - intros [= ->]. exists g. split; [set_solver|done].
  - intros (g' & ? & ?)%IH. exists g'. split; [set_solver|done].
Qed.

(** The pool returns what the sequential sender returns, whatever the order
    in which its workers complete. *)
Lemma pool_is_sequential group_ids completion_order :
  completion_order ≡ₚ group_ids →
  send_worker_pool score group_ids completion_order snapshots project_id
  = send_sequential score group_ids snapshots project_id.
Proof.
  intros Hperm.
  assert (∀ g, g ∈ group_ids →
               per_group_outputs score completion_order snapshots project_id
               !! g = Some (score g snapshots project_id)) as Houtputs.
  { intros g Hin. unfold per_group_outputs.
    rewrite per_group_outputs_lookup.
    by rewrite decide_True by (by rewrite Hperm). }
  pose proof (sequential_success group_ids nothing_sent) as Hsuccess.
  pose proof (sequential_reason _ group_ids nothing_sent Houtputs) as Hreason.
  assert (results (send_sequential score group_ids snapshots project_id)
          = omap outcome_of
              (per_group_outputs score completion_order snapshots
                 project_id)) as Hresults.
  { apply map_eq. intros g. unfold send_sequential, per_group_outputs.
    rewrite sequential_results_lookup, lookup_omap,
      per_group_outputs_lookup.
    destruct (decide (g ∈ group_ids)) as [Hin|Hnotin].
    - rewrite decide_True by (by rewrite Hperm). simpl.
      by destruct (score g snapshots project_id).
    - rewrite decide_False by (by rewrite Hperm). simpl.
      by destruct (score g snapshots project_id). }
  unfold send_worker_pool. fold (send_sequential score group_ids snapshots
                                   project_id) in Hsuccess, Hreason.
  simpl in Hsuccess, Hreason.
  destruct (send_sequential score group_ids snapshots project_id)
    as [s r w]; simpl in *. subst. f_equal.
  pose proof (first_failure_none _ _ Houtputs) as Hnone.
  destruct (forallb was_scored group_ids).
  - apply bool_decide_eq_true. by apply Hnone.
  - apply bool_decide_eq_false. intros Hfirst. by apply Hnone in Hfirst.
Qed.

(** The contract of the senders, read off the service's answers. *)
Lemma sequential_contract group_ids :
  (∀ g similarity_outcome,
     results (send_sequential score group_ids snapshots project_id) !! g
     = Some similarity_outcome
     ↔ g ∈ group_ids
       ∧ score g snapshots project_id = Scored similarity_outcome)
  ∧ (success (send_sequential score group_ids snapshots project_id) = true
     ↔ ∀ g, g ∈ group_ids →
            ∃ similarity_outcome,
              score g snapshots project_id = Scored similarity_outcome)
  ∧ (success (send_sequential score group_ids snapshots project_id) = false
     ↔ is_Some (reason (send_sequential score group_ids snapshots
                          project_id)))
  ∧ (∀ why,
       reason (send_sequential score group_ids snapshots project_id)
       = Some why →
       ∃ g, g ∈ group_ids
            ∧ score g snapshots project_id = ScoreFailed why).
Proof.
  assert (∀ g, g ∈ group_ids →
               per_group_outputs score group_ids snapshots project_id !! g
               = Some (score g snapshots project_id)) as Houtputs.
  { intros g Hin. unfold per_group_outputs.
    rewrite per_group_outputs_lookup. by rewrite decide_True. }
  pose proof (sequential_reason _ group_ids nothing_sent Houtputs) as Hreason.
  pose proof (sequential_success group_ids nothing_sent) as Hsuccess.
  fold (send_sequential score group_ids snapshots project_id)
    in Hsuccess, Hreason.
  simpl in Hsuccess, Hreason.
  split_and!.
  - intros g o. unfold send_sequential.
    rewrite sequential_results_lookup. simpl. rewrite lookup_empty.
    destruct (score g snapshots project_id) as [o'|why];
      [destruct (decide (g ∈ group_ids))|]; naive_solver.
  - rewrite Hsuccess, forallb_forall. unfold scored.
    split; intros Hall g Hin.
    + apply list_elem_of_In, Hall in Hin.
      destruct (score g snapshots project_id); [eauto|done].
    + apply list_elem_of_In, Hall in Hin as [o ->]. done.
  - rewrite Hsuccess, Hreason.
    destruct (forallb was_scored group_ids) eqn:Hall.
    + apply (first_failure_none _ _ Houtputs) in Hall as ->.
      split; [done|]. by intros [? ?].
    + destruct (first_failure _ group_ids) eqn:Hfirst; [by eauto|].
      apply (first_failure_none _ _ Houtputs) in Hfirst. congruence.
  - intros why. rewrite Hreason.
    intros (g & Hin & Hg)%first_failure_some. exists g. split; [done|].
    rewrite (Houtputs g Hin) in Hg. congruence.
Qed.
End SendersAgree.

(** ** The task cannot tell the modes apart *)

Lemma call_next_backfill_with_threads env threads g pid idx c od ei :
  call_next_backfill (with_threads env threads) g pid idx c od ei
  = call_next_backfill env g pid idx c od ei.
Proof. reflexivity. Qed.

(** When the two senders return the same response for the same arguments,
    the runs of an invocation under two thread counts make the same calls,
    but for which of the senders makes the similarity call, and end the same
    way. *)
Lemma runs_agree_up_to_mode (env : Env) (a : TaskArgs) (threads threads' : Z) :
  (∀ group_ids snapshots project_id,
     send_group_and_stacktrace_to_seer_multithreaded env group_ids snapshots
       project_id
     = send_group_and_stacktrace_to_seer env group_ids snapshots project_id) →
  forget_mode
  <$> trace (backfill_seer_grouping_records_for_project
               (with_threads env threads) a)
  = forget_mode
    <$> trace (backfill_seer_grouping_records_for_project
                 (with_threads env threads') a)
  ∧ outcome (backfill_seer_grouping_records_for_project
               (with_threads env threads) a)
    = outcome (backfill_seer_grouping_records_for_project
                 (with_threads env threads') a).
Proof.
  intros Hsame.
  assert (∀ n group_ids snapshots project_id,
            selected_sender (with_threads env n) group_ids snapshots
              project_id
            = send_group_and_stacktrace_to_seer env group_ids snapshots
                project_id) as Hselected.
  { intros n group_ids snapshots project_id.
    unfold selected_sender, multithreaded_selected. simpl.
    destruct (1 <? n); [apply Hsame|done]. }
  pose proof (backfill_path (with_threads env threads) a) as Hpath.
  destruct (backfill_seer_grouping_records_for_project
              (with_threads env threads) a) as [tr r].
  rewrite trace_pair. change (outcome (tr, r)) with r.
  unfold trace at 1, outcome in Hpath. simpl in Hpath.
  inversion Hpath as
    [ Hkill
    | Hgate Hinit
    | Hgate Hinit Hindex
    | project_index Hgate Hinit Hindex
    | project cursor project_index Hgate Hinit Hdelete
    | project project_index cursor batch_end_id Hselects
    | project project_index cursor groups batch_end_id filtered
        Hselects Hgroups Hsnuba
    | project project_index cursor groups batch_end_id filtered has_snuba_row
        snapshots Hselects Hgroups Hsnuba Hrows Hnodestore
    | project project_index cursor groups batch_end_id filtered has_snuba_row
        snapshots group_hashes_dict Hselects Hgroups Hsnuba Hrows Hnodestore
        Hhashes ]; subst.
  - by rewrite (path_run _ a _ _ (path_killswitch (with_threads env threads')
                                    a Hkill)).
  - by rewrite (path_run _ a _ _ (path_no_feature (with_threads env threads')
                                    a Hgate Hinit)).
  - by rewrite (path_run _ a _ _
                  (path_missing_project_asserts (with_threads env threads')
                     a Hgate Hinit Hindex)).
  - by rewrite (path_run _ a _ _
                  (path_missing_project_recovers (with_threads env threads')
                     a project_index Hgate Hinit Hindex)).
  - by rewrite (path_run _ a _ _
                  (path_only_delete (with_threads env threads') a project
                     cursor project_index Hgate Hinit Hdelete)).
  - by rewrite (path_run _ a _ _
                  (path_empty_batch (with_threads env threads') a project
                     project_index cursor batch_end_id Hselects)).
  - by rewrite (path_run _ a _ _
                  (path_no_snuba_rows (with_threads env threads') a project
                     project_index cursor groups batch_end_id filtered
                     Hselects Hgroups Hsnuba)).
  - by rewrite (path_run _ a _ _
                  (path_no_nodestore_rows (with_threads env threads') a
                     project project_index cursor groups batch_end_id
                     filtered has_snuba_row snapshots Hselects Hgroups Hsnuba
                     Hrows Hnodestore)).
  - rewrite (path_run _ a _ _
               (path_seer (with_threads env threads') a project project_index
                  cursor groups batch_end_id filtered has_snuba_row snapshots
                  group_hashes_dict Hselects Hgroups Hsnuba Hrows Hnodestore
                  Hhashes)).
    rewrite trace_pair. simpl snd. split; [|done].
    subst seer_response group_ids. rewrite !Hselected. unfold after_seer.
    rewrite !call_next_backfill_with_threads.
    rewrite !fmap_app. simpl. reflexivity.
Qed.

(** ** The similarity call and what follows it *)

(** C1. When the similarity service's response has a falsy [success] flag,
    the task writes nothing back ([update_groups] is not called) and
    schedules no continuation (nothing is enqueued, so the group cursor is
    not advanced past the failed batch); right after the call it logs,
    reports the failure with [capture_exception], and returns. *)
Theorem seer_failure_stops_the_walk (env : Env) (a : TaskArgs)
    (multithreaded : bool) (group_ids : list Z) (snapshots : pyval)
    (project_id : Z) (seer_response : gmap string pyval) :
  SendToSeer multithreaded group_ids snapshots project_id seer_response
  ∈ trace (backfill_seer_grouping_records_for_project env a) →
  truthy (dict_get seer_response "success") = false →
  never is_update_groups
    (trace (backfill_seer_grouping_records_for_project env a))
  ∧ never is_apply_async
      (trace (backfill_seer_grouping_records_for_project env a))
  ∧ (∃ reads,
       forallb is_query reads = true
       ∧ trace (backfill_seer_grouping_records_for_project env a)
         = reads
           ++ [SendToSeer multithreaded group_ids snapshots project_id
                 seer_response;
               Log "backfill_seer_grouping_records.seer_failed";
               CaptureException "Seer failed during backfill"])
  ∧ outcome (backfill_seer_grouping_records_for_project env a) = Returned ().
Proof.
  intros Hsend Hfailed.
  apply send_to_seer_inv in Hsend
    as (project & project_index & cursor & groups & batch_end_id & filtered
        & has_snuba_row & group_hashes_dict & _ & _ & _ & _ & _ & _ & _ & _
        & _ & _ & ->).
  unfold after_seer. rewrite Hfailed.
  unfold selection, snuba_calls, prologue, never, trace, outcome. simpl.
  split_and!; try done.
  by exists [Log "backfill_seer_grouping_records";
             InitializeBackfill (current_project_id a)
               (last_processed_group_id_input a)
               (last_processed_project_index_input a);
             GetCurrentBatchGroupsFromPostgres project cursor
               (opt_backfill_batch_size env) (enable_ingestion a);
             GetDataFromSnuba project groups;
             FilterSnubaResults (get_data_from_snuba env project groups)
               groups project;
             GetEventsFromNodestore project filtered has_snuba_row].
Qed.

Lemma seer_failure_stops_the_walk_witness :
  never is_update_groups
    (trace (backfill_seer_grouping_records_for_project Example.env
              (Example.args 13 None (CohortName "cohort_a") (Some 2) false)))
  ∧ never is_apply_async
      (trace (backfill_seer_grouping_records_for_project Example.env
                (Example.args 13 None (CohortName "cohort_a") (Some 2) false)))
  ∧ (∃ reads,
       forallb is_query reads = true
       ∧ trace (backfill_seer_grouping_records_for_project Example.env
                  (Example.args 13 None (CohortName "cohort_a") (Some 2)
                     false))
         = reads
           ++ [SendToSeer false [9] (PyList [PyInt 9]) 13
                 {[ "success" := PyBool false; "reason" := PyStr "timeout" ]};
               Log "backfill_seer_grouping_records.seer_failed";
               CaptureException "Seer failed during backfill"])
  ∧ outcome (backfill_seer_grouping_records_for_project Example.env
               (Example.args 13 None (CohortName "cohort_a") (Some 2) false))
    = Returned ().
Proof.
  apply (seer_failure_stops_the_walk Example.env
           (Example.args 13 None (CohortName "cohort_a") (Some 2) false)
           false [9] (PyList [PyInt 9]) 13
           {[ "success" := PyBool false; "reason" := PyStr "timeout" ]}).
  - vm_compute. do 6 apply list_elem_of_further. apply list_elem_of_here.
  - reflexivity.
Defined.

(** C8. Whenever the similarity client is called, in either mode, the group
    ids it is given are exactly the groups that survived the snuba row filter
    and have an entry in the nodestore group-hashes mapping, in the order the
    filter returned them; so each of them has both rows, groups lacking one
    are left out, and the run raises nothing. *)
Theorem seer_gets_groups_with_both_rows (env : Env) (a : TaskArgs)
    (multithreaded : bool) (group_ids : list Z) (snapshots : pyval)
    (project_id : Z) (seer_response : gmap string pyval) :
  SendToSeer multithreaded group_ids snapshots project_id seer_response
  ∈ trace (backfill_seer_grouping_records_for_project env a) →
  ∃ project project_index cursor groups batch_end_id filtered has_snuba_row
    group_hashes_dict,
    selects_batch env a project project_index cursor groups batch_end_id
    ∧ snuba_phase env project groups = (filtered, has_snuba_row)
    ∧ get_events_from_nodestore env project filtered has_snuba_row
      = (snapshots, group_hashes_dict)
    ∧ group_ids
      = filter (λ group_id, is_Some (group_hashes_dict !! group_id))
               has_snuba_row
    ∧ (∀ group_id,
         group_id ∈ group_ids
         ↔ group_id ∈ has_snuba_row
           ∧ is_Some (group_hashes_dict !! group_id))
    ∧ group_ids `sublist_of` has_snuba_row
    ∧ outcome (backfill_seer_grouping_records_for_project env a)
      = Returned ().
Proof.
  intros Hsend.
  apply send_to_seer_inv in Hsend
    as (project & project_index & cursor & groups & batch_end_id & filtered
        & has_snuba_row & group_hashes_dict & Hselects & _ & Hsnuba & _
        & Hnodestore & _ & -> & _ & _ & _ & ->).
  exists project, project_index, cursor, groups, batch_end_id, filtered,
    has_snuba_row, group_hashes_dict.
  unfold with_nodestore_row. split_and!; try done.
  - intros group_id. rewrite list_elem_of_filter. tauto.
  - apply sublist_filter.
Qed.

Lemma seer_gets_groups_with_both_rows_witness :
  ∃ project project_index cursor groups batch_end_id filtered has_snuba_row
    group_hashes_dict,
    selects_batch Example.env (Example.args 10 (Some 2) CohortNone None false)
      project project_index cursor groups batch_end_id
    ∧ snuba_phase Example.env project groups = (filtered, has_snuba_row)
    ∧ get_events_from_nodestore Example.env project filtered has_snuba_row
      = (PyList [PyInt 3; PyInt 4], group_hashes_dict)
    ∧ [4]
      = filter (λ group_id, is_Some (group_hashes_dict !! group_id))
               has_snuba_row
    ∧ (∀ group_id,
         group_id ∈ [4]
         ↔ group_id ∈ has_snuba_row
           ∧ is_Some (group_hashes_dict !! group_id))
    ∧ [4] `sublist_of` has_snuba_row
    ∧ outcome (backfill_seer_grouping_records_for_project Example.env
                 (Example.args 10 (Some 2) CohortNone None false))
      = Returned ().
Proof.
  apply (seer_gets_groups_with_both_rows Example.env
           (Example.args 10 (Some 2) CohortNone None false)
           false [4] (PyList [PyInt 3; PyInt 4]) 10
           {[ "success" := PyBool true ]}).
  vm_compute. do 6 apply list_elem_of_further. apply list_elem_of_here.
Defined.

(** The sender a similarity call went to, and the call the same invocation
    makes under any other thread count. *)
Lemma sender_selection (env : Env) (a : TaskArgs) (multithreaded : bool)
    (group_ids : list Z) (snapshots : pyval) (project_id : Z)
    (seer_response : gmap string pyval) :
  SendToSeer multithreaded group_ids snapshots project_id seer_response
  ∈ trace (backfill_seer_grouping_records_for_project env a) →
  (multithreaded = true ↔ 1 < opt_backfill_seer_threads env)
  ∧ seer_response
    = (if multithreaded
       then send_group_and_stacktrace_to_seer_multithreaded env
       else send_group_and_stacktrace_to_seer env)
        group_ids snapshots project_id
  ∧ ∀ threads : Z,
      SendToSeer (1 <? threads) group_ids snapshots project_id
        ((if 1 <? threads
          then send_group_and_stacktrace_to_seer_multithreaded env
          else send_group_and_stacktrace_to_seer env)
           group_ids snapshots project_id)
      ∈ trace (backfill_seer_grouping_records_for_project
                 (with_threads env threads) a).
Proof.
  intros Hsend.
  apply send_to_seer_inv in Hsend
    as (project & project_index & cursor & groups & batch_end_id & filtered
        & has_snuba_row & group_hashes_dict & Hselects & Hgroups & Hsnuba
        & Hrows & Hnodestore & Hhashes & -> & -> & -> & -> & _).
  unfold selected_sender, multithreaded_selected.
  split_and!.
  - rewrite Z.ltb_lt. tauto.
  - done.
  - intros threads.
    pose proof (path_seer (with_threads env threads) a project project_index
                  cursor groups batch_end_id filtered has_snuba_row
                  snapshots group_hashes_dict Hselects Hgroups Hsnuba Hrows
                  Hnodestore Hhashes) as Hpath.
    apply path_run in Hpath. rewrite Hpath.
    unfold trace, selection, snuba_calls, prologue, selected_sender,
      multithreaded_selected. simpl.
    do 6 apply list_elem_of_further. apply list_elem_of_here.
Qed.

(** C9.  On the code: the similarity call goes to the multithreaded sender
    exactly when [similarity.backfill_seer_threads] exceeds 1 and to the
    sequential sender otherwise, and the arguments of the call (eligible group
    ids, nodestore snapshots, project id) do not depend on the thread count:
    under any other thread count the same invocation calls the sender of that
    count with the same three arguments.  On the senders as the spec describes
    them: for the same groups, snapshots and project, and whatever order the
    workers complete in, the pool returns the very response the sequential
    sender returns: the same [success], the same group-to-outcome mapping and
    the same [reason], whether the call succeeds or fails.  That response
    maps exactly the groups whose call was answered to their outcome; its
    [success] is true exactly when every group's call was answered; its
    [reason] is populated exactly when [success] is false, and then comes
    from a failed call.  Put together: with these senders in the environment,
    the runs of an invocation under any two thread counts make the same calls,
    with the same arguments and the same responses, but for which of the two
    senders makes the similarity call, and end the same way. *)
Theorem senders_contract_equivalent :
  (∀ (env : Env) (a : TaskArgs) (multithreaded : bool) (group_ids : list Z)
     (snapshots : pyval) (project_id : Z) (seer_response : gmap string pyval),
     SendToSeer multithreaded group_ids snapshots project_id seer_response
     ∈ trace (backfill_seer_grouping_records_for_project env a) →
     (multithreaded = true ↔ 1 < opt_backfill_seer_threads env)
     ∧ seer_response
       = (if multithreaded
          then send_group_and_stacktrace_to_seer_multithreaded env
          else send_group_and_stacktrace_to_seer env)
           group_ids snapshots project_id
     ∧ ∀ threads : Z,
         SendToSeer (1 <? threads) group_ids snapshots project_id
           ((if 1 <? threads
             then send_group_and_stacktrace_to_seer_multithreaded env
             else send_group_and_stacktrace_to_seer env)
              group_ids snapshots project_id)
         ∈ trace (backfill_seer_grouping_records_for_project
                    (with_threads env threads) a))
  ∧ (∀ (score : Z → pyval → Z → ScoreResult) (group_ids : list Z)
       (snapshots : pyval) (project_id : Z) (completion_order : list Z),
       completion_order ≡ₚ group_ids →
       let sequential :=
         send_sequential score group_ids snapshots project_id in
       let pool :=
         send_worker_pool score group_ids completion_order snapshots
           project_id in
       pool = sequential
       ∧ (∀ group_id similarity_outcome,
            results sequential !! group_id = Some similarity_outcome
            ↔ group_id ∈ group_ids
              ∧ score group_id snapshots project_id
                = Scored similarity_outcome)
       ∧ (success sequential = true
          ↔ ∀ group_id, group_id ∈ group_ids →
              ∃ similarity_outcome,
                score group_id snapshots project_id
                = Scored similarity_outcome)
       ∧ (success sequential = false ↔ is_Some (reason sequential))
       ∧ (∀ why, reason sequential = Some why →
            ∃ group_id, group_id ∈ group_ids
                        ∧ score group_id snapshots project_id
                          = ScoreFailed why))
  ∧ (∀ (env : Env) (score : Z → pyval → Z → ScoreResult)
       (completion_order : list Z → list Z) (a : TaskArgs)
       (threads threads' : Z),
       (∀ group_ids, completion_order group_ids ≡ₚ group_ids) →
       let modelled := with_modelled_senders env score completion_order in
       forget_mode
       <$> trace (backfill_seer_grouping_records_for_project
                    (with_threads modelled threads) a)
       = forget_mode
         <$> trace (backfill_seer_grouping_records_for_project
                      (with_threads modelled threads') a)
       ∧ outcome (backfill_seer_grouping_records_for_project
                    (with_threads modelled threads) a)
         = outcome (backfill_seer_grouping_records_for_project
                      (with_threads modelled threads') a)).
Proof.
  split_and!.
  - intros env a multithreaded group_ids snapshots project_id seer_response.
    apply sender_selection.
  - intros score group_ids snapshots project_id completion_order Hperm
      sequential pool.
    split.
    + by apply pool_is_sequential.
    + apply sequential_contract.
  - intros env score completion_order a threads threads' Hperm modelled.
    apply runs_agree_up_to_mode.
    intros group_ids snapshots project_id. simpl.
    by rewrite pool_is_sequential.
Qed.

Lemma senders_contract_equivalent_witness :
  SendToSeer true [1] (PyList [PyInt 1]) 10 {[ "success" := PyBool true ]}
  ∈ trace (backfill_seer_grouping_records_for_project
             (with_threads Example.env 4)
             (Example.args 10 None CohortNone None false))
  ∧ send_worker_pool Example.score [1; 3; 4] [4; 3; 1] PyNone 10
    = send_sequential Example.score [1; 3; 4] PyNone 10
  ∧ (success (send_sequential Example.score [1; 3; 4] PyNone 10) = false
     ↔ is_Some (reason (send_sequential Example.score [1; 3; 4] PyNone 10)))
  ∧ forget_mode
    <$> trace (backfill_seer_grouping_records_for_project
                 (with_threads example_env_with_modelled_senders 4)
                 (Example.args 10 None CohortNone None false))
    = forget_mode
      <$> trace (backfill_seer_grouping_records_for_project
                   (with_threads example_env_with_modelled_senders 1)
                   (Example.args 10 None CohortNone None false)).
Proof.
  destruct senders_contract_equivalent as (Hcode & Hsenders & Hruns).
  split_and!.
  - assert (SendToSeer false [1] (PyList [PyInt 1]) 10
              {[ "success" := PyBool true ]}
            ∈ trace (backfill_seer_grouping_records_for_project Example.env
                       (Example.args 10 None CohortNone None false)))
      as Hsend.
    { vm_compute. do 6 apply list_elem_of_further. apply list_elem_of_here. }
    destruct (Hcode _ _ _ _ _ _ _ Hsend) as (_ & _ & Hany).
    apply (Hany 4).
  - assert ([4; 3; 1] ≡ₚ [1; 3; 4]) as Hperm.
    { symmetry. apply (Permutation_rev [1; 3; 4]). }
    destruct (Hsenders Example.score [1; 3; 4] PyNone 10 [4; 3; 1] Hperm)
      as (Hsame & _).
    exact Hsame.
  - assert ([4; 3; 1] ≡ₚ [1; 3; 4]) as Hperm.
    { symmetry. apply (Permutation_rev [1; 3; 4]). }
    destruct (Hsenders Example.score [1; 3; 4] PyNone 10 [4; 3; 1] Hperm)
      as (_ & _ & _ & Hreason & _).
    exact Hreason.
  - assert (∀ group_ids : list Z, rev group_ids ≡ₚ group_ids) as Hperm.
    { intros group_ids. symmetry. apply Permutation_rev. }
    destruct (Hruns Example.env Example.score (@rev Z)
                (Example.args 10 None CohortNone None false) 4 1 Hperm)
      as (Htrace & _).
    exact Htrace.
Defined.


(** ** Batches with nothing to score *)






(** ** What the scheduler enqueues *)

Lemma scheduler_events env g pid idx c od ei (e : event) :
  e ∈ trace (call_next_backfill env g pid idx c od ei) →
  is_scheduler_event e = true.
Proof.
  unfold call_next_backfill, trace, mbind, task_bind, emit, call.
  destruct g as [group_id|]; simpl.
  { rewrite !elem_of_cons, elem_of_nil. by intros [->|[->|[]]]. }
  destruct (cohort_truthy c); simpl.
  - destruct (get_project_for_batch env idx (cohort_projects_of env c))
      as [[next_project_id|] next_project_index]; simpl;
      rewrite !elem_of_cons, elem_of_nil; by intros [->|[->|[]]].
  - rewrite !elem_of_cons, elem_of_nil. by intros [->|[]].
Qed.

(** The scheduler enqueues at most once, as its last call, with trace
    propagation off; what it enqueues is either the same project with the
    group cursor it was given, or, the cursor being null and the cohort
    truthy, the project and project index [get_project_for_batch] produced,
    with a null group cursor.  Cohort and flags are passed on unchanged. *)
Lemma scheduler_enqueues env g pid idx c od ei :
  never is_apply_async (trace (call_next_backfill env g pid idx c od ei))
  ∨ ∃ before args,
      trace (call_next_backfill env g pid idx c od ei)
      = before ++ [ApplyAsync args false]
      ∧ never is_apply_async before
      ∧ cohort args = c ∧ only_delete args = od ∧ enable_ingestion args = ei
      ∧ ((∃ group_id,
            g = Some group_id
            ∧ current_project_id args = pid
            ∧ last_processed_group_id_input args = Some group_id
            ∧ last_processed_project_index_input args = Some idx)
         ∨ (g = None
            ∧ cohort_truthy c = true
            ∧ last_processed_group_id_input args = None
            ∧ get_project_for_batch env idx (cohort_projects_of env c)
              = (Some (current_project_id args),
                 last_processed_project_index_input args))).
Proof.
  unfold call_next_backfill, trace, never, mbind, task_bind, emit, call.
  destruct g as [group_id|]; simpl.
  { right. eexists [_], _. split; [done|]. split_and!; try done.
    left. by exists group_id. }
  destruct (cohort_truthy c) eqn:Hcohort; simpl; [|by left].
  destruct (get_project_for_batch env idx (cohort_projects_of env c))
    as [[next_project_id|] next_project_index] eqn:Hnext; simpl; [|by left].
  right. eexists [_], _. split; [done|]. split_and!; try done.
  by right.
Qed.

(** ** The shape of a run *)

(** A run either never reaches the scheduler, and then enqueues nothing, or
    is some work that enqueues nothing followed by one call of
    [call_next_backfill], on the current project with the cohort and flags of
    the invocation. *)
Lemma run_shape (env : Env) (a : TaskArgs) :
  never is_apply_async
    (trace (backfill_seer_grouping_records_for_project env a))
  ∨ ∃ work group_cursor project_index,
      gate_open env a
      ∧ hands_over env a group_cursor project_index
      ∧ never is_apply_async work
      ∧ trace (backfill_seer_grouping_records_for_project env a)
        = work
          ++ trace (call_next_backfill env group_cursor (current_project_id a)
                      project_index (cohort a) (only_delete a)
                      (enable_ingestion a)).
Proof.
  pose proof (backfill_path env a) as Hpath.
  destruct (backfill_seer_grouping_records_for_project env a) as [tr r].
  rewrite trace_pair. unfold trace at 1, outcome in Hpath. simpl in Hpath.
  inversion Hpath as
    [ Hkill
    | Hgate Hinit
    | Hgate Hinit Hindex
    | project_index Hgate Hinit Hindex
    | project cursor project_index Hgate Hinit Hdelete
    | project project_index cursor batch_end_id Hselects
    | project project_index cursor groups batch_end_id filtered
        Hselects Hgroups Hsnuba
    | project project_index cursor groups batch_end_id filtered has_snuba_row
        snapshots Hselects Hgroups Hsnuba Hrows Hnodestore
    | project project_index cursor groups batch_end_id filtered has_snuba_row
        snapshots group_hashes_dict Hselects Hgroups Hsnuba Hrows Hnodestore
        Hhashes ]; subst.
  - by left.
  - by left.
  - by left.
  - right.
    exists (prologue a
            ++ [Log "backfill_seer_grouping_records.project_does_not_exist"]),
      None, project_index.
    split_and!; [done| |done|].
    + by left.
    + by rewrite (assoc_L (++)).
  - right.
    exists (prologue a
            ++ [DeleteSeerGroupingRecords (current_project_id a);
                Log "backfill_seer_grouping_records.deleted_all_records"]),
      None, project_index.
    rewrite Hdelete. split_and!; [done| |done|].
    + right. left. eauto.
    + by rewrite (assoc_L (++)).
  - right.
    exists (selection a project cursor (opt_backfill_batch_size env)),
      batch_end_id, project_index.
    destruct Hselects as (Hgate & Hinit & Hdelete & Hbatch). rewrite Hdelete.
    split_and!; [done| |done|done].
    right. right. by exists project, cursor, [].
  - right.
    exists (selection a project cursor (opt_backfill_batch_size env)
            ++ snuba_calls env project groups),
      batch_end_id, project_index.
    pose proof Hselects as (Hgate & Hinit & Hdelete & Hbatch). rewrite Hdelete.
    split_and!; [done| |done|].
    + right. right. by exists project, cursor, groups.
    + by rewrite (assoc_L (++)).
  - right.
    exists (selection a project cursor (opt_backfill_batch_size env)
            ++ snuba_calls env project groups
            ++ [GetEventsFromNodestore project filtered has_snuba_row]),
      batch_end_id, project_index.
    pose proof Hselects as (Hgate & Hinit & Hdelete & Hbatch). rewrite Hdelete.
    split_and!; [done| |done|].
    + right. right. by exists project, cursor, groups.
    + by rewrite !(assoc_L (++)).
  - unfold after_seer.
    pose proof Hselects as (Hgate & Hinit & Hdelete & Hbatch).
    destruct (truthy (dict_get _ "success")); [|by left].
    right.
    exists (selection a project cursor (opt_backfill_batch_size env)
            ++ snuba_calls env project groups
            ++ [GetEventsFromNodestore project filtered has_snuba_row;
                SendToSeer (multithreaded_selected env)
                  (with_nodestore_row group_hashes_dict has_snuba_row)
                  snapshots (Project.id project)
                  (selected_sender env
                     (with_nodestore_row group_hashes_dict has_snuba_row)
                     snapshots (Project.id project))]
            ++ [UpdateGroups project
                  (selected_sender env
                     (with_nodestore_row group_hashes_dict has_snuba_row)
                     snapshots (Project.id project))
                  (with_nodestore_row group_hashes_dict has_snuba_row)
                  group_hashes_dict;
                Log "about to call next backfill"]),
      batch_end_id, project_index.
    rewrite Hdelete. split_and!; [done| |done|].
    + right. right. by exists project, cursor, groups.
    + by rewrite !(assoc_L (++)).
Qed.

(** Whatever a run enqueues was enqueued by the scheduler, at one of the
    three places where the task hands over to it. *)
Lemma enqueues_inv (env : Env) (a a' : TaskArgs) :
  enqueues env a a' →
  ∃ group_cursor project_index,
    gate_open env a
    ∧ hands_over env a group_cursor project_index
    ∧ cohort a' = cohort a
    ∧ only_delete a' = only_delete a
    ∧ enable_ingestion a' = enable_ingestion a
    ∧ ((∃ group_id,
          group_cursor = Some group_id
          ∧ current_project_id a' = current_project_id a
          ∧ last_processed_group_id_input a' = Some group_id
          ∧ last_processed_project_index_input a' = Some project_index)
       ∨ (group_cursor = None
          ∧ cohort_truthy (cohort a) = true
          ∧ last_processed_group_id_input a' = None
          ∧ get_project_for_batch env project_index
              (cohort_projects_of env (cohort a))
            = (Some (current_project_id a'),
               last_processed_project_index_input a'))).
Proof.
  intros [propagate_traces Henqueued].
  destruct (run_shape env a)
    as [Hnone | (work & group_cursor & project_index & Hgate & Hhand & Hwork
                 & Htrace)].
  { by apply (never_elem_of _ _ _ Hnone) in Henqueued. }
  rewrite Htrace in Henqueued. apply elem_of_app in Henqueued as [Hin|Hin].
  { by apply (never_elem_of _ _ _ Hwork) in Hin. }
  destruct (scheduler_enqueues env group_cursor (current_project_id a)
              project_index (cohort a) (only_delete a) (enable_ingestion a))
    as [Hnone | (before & args & Hlast & Hbefore & Hcohort & Hdelete
                 & Hingest & Hargs)].
  { by apply (never_elem_of _ _ _ Hnone) in Hin. }
  rewrite Hlast in Hin. apply elem_of_app in Hin as [Hin|Hin].
  { by apply (never_elem_of _ _ _ Hbefore) in Hin. }
  apply list_elem_of_singleton in Hin. injection Hin as -> ->.
  by exists group_cursor, project_index.
Qed.

(** X1. Every invocation enqueues at most one task; when it does, the
    [apply_async] is the last call of the run and is made with trace
    propagation switched off. *)
Theorem at_most_one_continuation (env : Env) (a : TaskArgs) :
  never is_apply_async
    (trace (backfill_seer_grouping_records_for_project env a))
  ∨ ∃ before next_args,
      trace (backfill_seer_grouping_records_for_project env a)
      = before ++ [ApplyAsync next_args false]
      ∧ never is_apply_async before.
Proof.
  destruct (run_shape env a)
    as [Hnone | (work & group_cursor & project_index & _ & _ & Hwork
                 & Htrace)]; [by left|].
  destruct (scheduler_enqueues env group_cursor (current_project_id a)
              project_index (cohort a) (only_delete a) (enable_ingestion a))
    as [Hnone | (before & args & Hlast & Hbefore & _)].
  - left. rewrite Htrace. by apply never_app.
  - right. exists (work ++ before), args. split.
    + by rewrite Htrace, Hlast, (assoc_L (++)).
    + by apply never_app.
Qed.

(** X2. The task enqueued by an invocation has the same [cohort],
    [only_delete] and [enable_ingestion] as the invocation itself. *)
Theorem continuation_keeps_cohort_and_flags (env : Env) (a a' : TaskArgs) :
  enqueues env a a' →
  cohort a' = cohort a
  ∧ only_delete a' = only_delete a
  ∧ enable_ingestion a' = enable_ingestion a.
Proof.
  intros Henqueued.
  by apply enqueues_inv in Henqueued as (? & ? & _ & _ & ? & ? & ? & _).
Qed.

(** X3. When the enqueued task carries a group cursor, it is for the same
    project, the cursor is the end id the batch selector returned in this
    invocation, and the project index is the one [initialize_backfill]
    returned. *)
Theorem same_project_continuation_resumes_at_batch_end (env : Env)
    (a a' : TaskArgs) (group_id : Z) :
  enqueues env a a' →
  last_processed_group_id_input a' = Some group_id →
  current_project_id a' = current_project_id a
  ∧ ∃ project project_index cursor groups,
      selects_batch env a project project_index cursor groups (Some group_id)
      ∧ last_processed_project_index_input a' = Some project_index.
Proof.
  intros Henqueued Hcursor.
  apply enqueues_inv in Henqueued
    as (group_cursor & project_index & _ & Hhand & _ & _ & _
        & [(g & -> & Hproject & Hg & Hindex) | (_ & _ & Hnull & _)]);
    [|congruence].
  assert (g = group_id) as -> by congruence.
  split; [done|].
  destruct Hhand as [(? & _) | [(? & _) | (project & cursor & groups & ?)]];
    [done..|].
  by exists project, project_index, cursor, groups.
Qed.

(** X4. When the enqueued task has a null group cursor, the cohort is truthy
    and the task's project and project index are the pair
    [get_project_for_batch] produced for the cohort's project list: the walk
    moves to another project in no other way. *)
Theorem project_change_comes_from_cohort (env : Env) (a a' : TaskArgs) :
  enqueues env a a' →
  last_processed_group_id_input a' = None →
  cohort_truthy (cohort a) = true
  ∧ ∃ project_index,
      hands_over env a None project_index
      ∧ get_project_for_batch env project_index
          (cohort_projects_of env (cohort a))
        = (Some (current_project_id a'),
           last_processed_project_index_input a').
Proof.
  intros Henqueued Hcursor.
  apply enqueues_inv in Henqueued
    as (group_cursor & project_index & _ & Hhand & _ & _ & _
        & [(g & _ & _ & Hg & _) | (-> & Hcohort & _ & Hnext)]);
    [congruence|].
  split; [done|]. by exists project_index.
Qed.

Lemma continuation_keeps_cohort_and_flags_witness :
  cohort (Example.args 404 None (CohortName "cohort_a") (Some 1) true)
  = cohort (Example.args 10 None (CohortName "cohort_a") None true)
  ∧ only_delete (Example.args 404 None (CohortName "cohort_a") (Some 1) true)
    = only_delete (Example.args 10 None (CohortName "cohort_a") None true)
  ∧ enable_ingestion
      (Example.args 404 None (CohortName "cohort_a") (Some 1) true)
    = enable_ingestion
        (Example.args 10 None (CohortName "cohort_a") None true).
Proof.
  apply (continuation_keeps_cohort_and_flags Example.env).
  exists false. vm_compute.
  do 5 apply list_elem_of_further. apply list_elem_of_here.
Defined.

Lemma same_project_continuation_resumes_at_batch_end_witness :
  current_project_id (Example.args 10 (Some 2) CohortNone (Some 0) false)
  = current_project_id (Example.args 10 None CohortNone None false)
  ∧ ∃ project project_index cursor groups,
      selects_batch Example.env (Example.args 10 None CohortNone None false)
        project project_index cursor groups (Some 2)
      ∧ last_processed_project_index_input
          (Example.args 10 (Some 2) CohortNone (Some 0) false)
        = Some project_index.
Proof.
  apply (same_project_continuation_resumes_at_batch_end Example.env
           (Example.args 10 None CohortNone None false)
           (Example.args 10 (Some 2) CohortNone (Some 0) false) 2).
  - exists false. vm_compute.
    do 10 apply list_elem_of_further. apply list_elem_of_here.
  - reflexivity.
Defined.

Lemma project_change_comes_from_cohort_witness :
  cohort_truthy
    (cohort (Example.args 10 None (CohortName "cohort_a") None true)) = true
  ∧ ∃ project_index,
      hands_over Example.env
        (Example.args 10 None (CohortName "cohort_a") None true) None
        project_index
      ∧ get_project_for_batch Example.env project_index
          (cohort_projects_of Example.env
             (cohort (Example.args 10 None (CohortName "cohort_a") None true)))
        = (Some 404, Some 1).
Proof.
  apply (project_change_comes_from_cohort Example.env
           (Example.args 10 None (CohortName "cohort_a") None true)
           (Example.args 404 None (CohortName "cohort_a") (Some 1) true)).
  - exists false. vm_compute.
    do 5 apply list_elem_of_further. apply list_elem_of_here.
  - reflexivity.
Defined.

(** ** What a call in the trace tells about the run *)

(** Splits membership in an explicit trace into its cases; nothing but
    scheduler calls comes from the scheduler. *)
Ltac elem_of_run H :=
  unfold selection, snuba_calls, prologue in H;
  repeat first
    [ rewrite elem_of_app in H
    | rewrite elem_of_cons in H
    | rewrite elem_of_nil in H ];
  destruct_or?; try done;
  try (apply scheduler_events in H; done).

(** X5. [update_groups] is called only after a similarity call whose
    response has a truthy [success]; it is given that very response, the
    group ids that were sent, and the group-hashes mapping the nodestore
    returned together with the snapshots that were sent. *)
Theorem write_back_only_after_successful_call (env : Env) (a : TaskArgs) (project : Project.t)
    (seer_response : gmap string pyval) (group_ids : list Z)
    (group_hashes_dict : gmap Z pyval) :
  UpdateGroups project seer_response group_ids group_hashes_dict
  ∈ trace (backfill_seer_grouping_records_for_project env a) →
  truthy (dict_get seer_response "success") = true
  ∧ ∃ snapshots,
      SendToSeer (multithreaded_selected env) group_ids snapshots
        (Project.id project) seer_response
      ∈ trace (backfill_seer_grouping_records_for_project env a)
      ∧ ∃ filtered has_snuba_row,
          get_events_from_nodestore env project filtered has_snuba_row
          = (snapshots, group_hashes_dict)
          ∧ group_ids = with_nodestore_row group_hashes_dict has_snuba_row.
Proof.
  intros Hupdate.
  pose proof (backfill_path env a) as Hpath.
  destruct (backfill_seer_grouping_records_for_project env a) as [tr r].
  unfold trace, outcome in Hpath, Hupdate |- *. simpl in Hpath, Hupdate |- *.
  inversion Hpath; subst; try (elem_of_run Hupdate; fail).
  unfold after_seer in *.
  destruct (truthy (dict_get seer_response0 "success")) eqn:Hsuccess;
    elem_of_run Hupdate.
  injection Hupdate as -> -> -> ->.
  split; [done|]. exists snapshots. split.
  - unfold selection, snuba_calls, prologue. simpl.
    do 6 apply list_elem_of_further. apply list_elem_of_here.
  - by exists filtered, has_snuba_row.
Qed.

Lemma write_back_only_after_successful_call_witness :
  truthy (dict_get {[ "success" := PyBool true ]} "success") = true
  ∧ ∃ snapshots,
      SendToSeer (multithreaded_selected Example.env) [1] snapshots
        (Project.id {| Project.id := 10 |}) {[ "success" := PyBool true ]}
      ∈ trace (backfill_seer_grouping_records_for_project Example.env
                 (Example.args 10 None CohortNone None false))
      ∧ ∃ filtered has_snuba_row,
          get_events_from_nodestore Example.env {| Project.id := 10 |}
            filtered has_snuba_row
          = (snapshots, {[ 1 := PyStr "hash" ]})
          ∧ [1] = with_nodestore_row {[ 1 := PyStr "hash" ]} has_snuba_row.
Proof.
  apply (write_back_only_after_successful_call Example.env
           (Example.args 10 None CohortNone None false)
           {| Project.id := 10 |} {[ "success" := PyBool true ]} [1]
           {[ 1 := PyStr "hash" ]}).
  vm_compute. do 7 apply list_elem_of_further. apply list_elem_of_here.
Defined.

(** X6. When the similarity response has a truthy [success], the run goes
    on, right after the call, with [update_groups], a log line and
    [call_next_backfill] on the batch's end id; nothing is reported to
    [capture_exception] and the run returns normally. *)
Theorem seer_success_writes_back_then_continues (env : Env) (a : TaskArgs)
    (multithreaded : bool) (group_ids : list Z) (snapshots : pyval)
    (project_id : Z) (seer_response : gmap string pyval) :
  SendToSeer multithreaded group_ids snapshots project_id seer_response
  ∈ trace (backfill_seer_grouping_records_for_project env a) →
  truthy (dict_get seer_response "success") = true →
  ∃ reads project project_index cursor groups batch_end_id
    group_hashes_dict,
    forallb is_query reads = true
    ∧ selects_batch env a project project_index cursor groups batch_end_id
    ∧ backfill_seer_grouping_records_for_project env a
      = (reads
         ++ [SendToSeer multithreaded group_ids snapshots project_id
               seer_response;
             UpdateGroups project seer_response group_ids group_hashes_dict;
             Log "about to call next backfill"]
         ++ trace (call_next_backfill env batch_end_id (current_project_id a)
                     project_index (cohort a) false (enable_ingestion a)),
         Returned ())
    ∧ never is_capture_exception
        (trace (backfill_seer_grouping_records_for_project env a)).
Proof.
  intros Hsend Hsuccess.
  apply send_to_seer_inv in Hsend
    as (project & project_index & cursor & groups & batch_end_id & filtered
        & has_snuba_row & group_hashes_dict & Hselects & _ & _ & _ & _ & _
        & _ & _ & _ & _ & Hrun).
  exists (selection a project cursor (opt_backfill_batch_size env)
          ++ snuba_calls env project groups
          ++ [GetEventsFromNodestore project filtered has_snuba_row]),
    project, project_index, cursor, groups, batch_end_id, group_hashes_dict.
  unfold after_seer in Hrun. rewrite Hsuccess in Hrun.
  split_and!; [done|done| |].
  - rewrite Hrun. by rewrite <- !(assoc_L (++)).
  - rewrite Hrun, trace_pair.
    destruct (call_next_backfill_quiet env batch_end_id (current_project_id a)
                project_index (cohort a) false (enable_ingestion a))
      as (_ & _ & _ & _ & _ & Hquiet).
    rewrite !never_app. by split_and!.
Qed.

Lemma seer_success_writes_back_then_continues_witness :
  ∃ reads project project_index cursor groups batch_end_id
    group_hashes_dict,
    forallb is_query reads = true
    ∧ selects_batch Example.env (Example.args 10 None CohortNone None false)
        project project_index cursor groups batch_end_id
    ∧ backfill_seer_grouping_records_for_project Example.env
        (Example.args 10 None CohortNone None false)
      = (reads
         ++ [SendToSeer false [1] (PyList [PyInt 1]) 10
               {[ "success" := PyBool true ]};
             UpdateGroups project {[ "success" := PyBool true ]} [1]
               group_hashes_dict;
             Log "about to call next backfill"]
         ++ trace (call_next_backfill Example.env batch_end_id
                     (current_project_id
                        (Example.args 10 None CohortNone None false))
                     project_index
                     (cohort (Example.args 10 None CohortNone None false))
                     false
                     (enable_ingestion
                        (Example.args 10 None CohortNone None false))),
         Returned ())
    ∧ never is_capture_exception
        (trace (backfill_seer_grouping_records_for_project Example.env
                  (Example.args 10 None CohortNone None false))).
Proof.
  apply (seer_success_writes_back_then_continues Example.env
           (Example.args 10 None CohortNone None false) false [1]
           (PyList [PyInt 1]) 10 {[ "success" := PyBool true ]}).
  - vm_compute. do 6 apply list_elem_of_further. apply list_elem_of_here.
  - reflexivity.
Defined.

(** X7. [capture_exception] is called only to report a failed similarity
    call: the run holds a similarity call whose response has a falsy
    [success], and the exception carries the message of line 192. *)
Theorem failure_reported_only_when_seer_failed (env : Env) (a : TaskArgs)
    (msg : string) :
  CaptureException msg
  ∈ trace (backfill_seer_grouping_records_for_project env a) →
  msg = "Seer failed during backfill"
  ∧ ∃ multithreaded group_ids snapshots project_id seer_response,
      SendToSeer multithreaded group_ids snapshots project_id seer_response
      ∈ trace (backfill_seer_grouping_records_for_project env a)
      ∧ truthy (dict_get seer_response "success") = false.
Proof.
  intros Hcapture.
  pose proof (backfill_path env a) as Hpath.
  destruct (backfill_seer_grouping_records_for_project env a) as [tr r].
  unfold trace, outcome in Hpath, Hcapture |- *.
  simpl in Hpath, Hcapture |- *.
  inversion Hpath; subst; try (elem_of_run Hcapture; fail).
  unfold after_seer in *.
  destruct (truthy (dict_get seer_response "success")) eqn:Hsuccess;
    elem_of_run Hcapture.
  injection Hcapture as ->.
  split; [done|].
  exists (multithreaded_selected env), group_ids, snapshots,
    (Project.id project), seer_response.
  split; [|done].
  unfold selection, snuba_calls, prologue. simpl.
  do 6 apply list_elem_of_further. apply list_elem_of_here.
Qed.

Lemma failure_reported_only_when_seer_failed_witness :
  "Seer failed during backfill" = "Seer failed during backfill"
  ∧ ∃ multithreaded group_ids snapshots project_id seer_response,
      SendToSeer multithreaded group_ids snapshots project_id seer_response
      ∈ trace (backfill_seer_grouping_records_for_project Example.env
                 (Example.args 13 None CohortNone None false))
      ∧ truthy (dict_get seer_response "success") = false.
Proof.
  apply (failure_reported_only_when_seer_failed Example.env
           (Example.args 13 None CohortNone None false)).
  vm_compute. do 8 apply list_elem_of_further. apply list_elem_of_here.
Defined.

(** X8. Grouping records are deleted only in [only_delete] mode: a
    [delete_seer_grouping_records] call is for the current project, in an
    invocation that has [only_delete] set, is past the killswitch gate and
    whose project lookup succeeded. *)
Theorem deletes_only_in_only_delete_mode (env : Env) (a : TaskArgs)
    (project_id : Z) :
  DeleteSeerGroupingRecords project_id
  ∈ trace (backfill_seer_grouping_records_for_project env a) →
  project_id = current_project_id a
  ∧ only_delete a = true
  ∧ gate_open env a
  ∧ ∃ project cursor project_index,
      initialize_backfill env (current_project_id a)
        (last_processed_group_id_input a)
        (last_processed_project_index_input a)
      = InitOk project cursor project_index.
Proof.
  intros Hdelete.
  pose proof (backfill_path env a) as Hpath.
  destruct (backfill_seer_grouping_records_for_project env a) as [tr r].
  unfold trace, outcome in Hpath, Hdelete. simpl in Hpath, Hdelete.
  inversion Hpath; subst; try (elem_of_run Hdelete; fail).
  - elem_of_run Hdelete. injection Hdelete as ->. split_and!; eauto.
  - unfold after_seer in *.
    destruct (truthy (dict_get seer_response "success"));
      elem_of_run Hdelete.
Qed.

Lemma deletes_only_in_only_delete_mode_witness :
  10 = current_project_id
         (Example.args 10 None (CohortName "cohort_a") None true)
  ∧ only_delete (Example.args 10 None (CohortName "cohort_a") None true)
    = true
  ∧ gate_open Example.env
      (Example.args 10 None (CohortName "cohort_a") None true)
  ∧ ∃ project cursor project_index,
      initialize_backfill Example.env 10 None None
      = InitOk project cursor project_index.
Proof.
  apply (deletes_only_in_only_delete_mode Example.env
           (Example.args 10 None (CohortName "cohort_a") None true) 10).
  vm_compute. do 2 apply list_elem_of_further. apply list_elem_of_here.
Defined.

(** X9. The nodestore is queried only for a non-empty batch of which at
    least one group has a snuba row: a [get_events_from_nodestore] call is
    given the rows and groups [filter_snuba_results] kept, and both the
    selected batch and the kept groups are non-empty. *)
Theorem nodestore_queried_only_with_snuba_rows (env : Env) (a : TaskArgs)
    (project : Project.t) (filtered : pyval) (has_snuba_row : list Z) :
  GetEventsFromNodestore project filtered has_snuba_row
  ∈ trace (backfill_seer_grouping_records_for_project env a) →
  has_snuba_row ≠ []
  ∧ ∃ project_index cursor groups batch_end_id,
      selects_batch env a project project_index cursor groups batch_end_id
      ∧ groups ≠ []
      ∧ snuba_phase env project groups = (filtered, has_snuba_row).
Proof.
  intros Hquery.
  pose proof (backfill_path env a) as Hpath.
  destruct (backfill_seer_grouping_records_for_project env a) as [tr r].
  unfold trace, outcome in Hpath, Hquery. simpl in Hpath, Hquery.
  inversion Hpath; subst; try (elem_of_run Hquery; fail).
  - elem_of_run Hquery. injection Hquery as -> -> ->.
    split; [done|]. by exists project_index, cursor, groups, batch_end_id.
  - unfold after_seer in *.
    destruct (truthy (dict_get seer_response "success"));
      elem_of_run Hquery; injection Hquery as -> -> ->;
      (split; [done|]);
      by exists project_index, cursor, groups, batch_end_id.
Qed.

Lemma nodestore_queried_only_with_snuba_rows_witness :
  [1] ≠ []
  ∧ ∃ project_index cursor groups batch_end_id,
      selects_batch Example.env (Example.args 10 None CohortNone None false)
        {| Project.id := 10 |} project_index cursor groups batch_end_id
      ∧ groups ≠ []
      ∧ snuba_phase Example.env {| Project.id := 10 |} groups
        = (PyList [PyInt 1; PyInt 2], [1]).
Proof.
  apply (nodestore_queried_only_with_snuba_rows Example.env
           (Example.args 10 None CohortNone None false)
           {| Project.id := 10 |} (PyList [PyInt 1; PyInt 2]) [1]).
  vm_compute. do 5 apply list_elem_of_further. apply list_elem_of_here.
Defined.

(** X10. The only exception the task raises itself is the failed assertion
    of the missing-project branch: a run that does not return normally is
    past the killswitch gate, its project lookup raised [DoesNotExist], and
    it was given no project index. *)
Theorem raises_only_on_missing_project_without_index (env : Env)
    (a : TaskArgs) (e : exn) :
  outcome (backfill_seer_grouping_records_for_project env a) = Raised e →
  gate_open env a
  ∧ initialize_backfill env (current_project_id a)
      (last_processed_group_id_input a)
      (last_processed_project_index_input a) = InitProjectDoesNotExist
  ∧ last_processed_project_index_input a = None.
Proof.
  intros Hraised.
  pose proof (backfill_path env a) as Hpath.
  rewrite Hraised in Hpath.
  by inversion Hpath.
Qed.

Lemma raises_only_on_missing_project_without_index_witness :
  gate_open Example.env (Example.args 404 None CohortNone None false)
  ∧ initialize_backfill Example.env 404 None None = InitProjectDoesNotExist
  ∧ last_processed_project_index_input
      (Example.args 404 None CohortNone None false) = None.
Proof.
  apply (raises_only_on_missing_project_without_index Example.env
           (Example.args 404 None CohortNone None false) AssertionError).
  reflexivity.
Defined.

(** X11. When [initialize_backfill] raises [FeatureError], the task logs and
    returns: it deletes nothing, selects no batch and, unlike the
    missing-project branch, does not call [call_next_backfill], so nothing
    is enqueued even when a cohort was given. *)
Theorem feature_error_ends_the_walk (env : Env) (a : TaskArgs) :
  gate_open env a →
  initialize_backfill env (current_project_id a)
    (last_processed_group_id_input a) (last_processed_project_index_input a)
  = InitFeatureError →
  backfill_seer_grouping_records_for_project env a
  = ([Log "backfill_seer_grouping_records";
      InitializeBackfill (current_project_id a)
        (last_processed_group_id_input a)
        (last_processed_project_index_input a);
      Log "backfill_seer_grouping_records.no_feature"],
     Returned ())
  ∧ ∀ a', ¬ enqueues env a a'.
Proof.
  intros Hgate Hinit.
  pose proof (path_run env a _ _ (path_no_feature env a Hgate Hinit)) as Hrun.
  split; [done|].
  intros a' [propagate_traces Henqueued].
  rewrite Hrun, trace_pair in Henqueued. by elem_of_run Henqueued.
Qed.

Lemma feature_error_ends_the_walk_witness :
  backfill_seer_grouping_records_for_project example_env_without_feature
    (Example.args 77 None (CohortName "cohort_a") (Some 0) false)
  = ([Log "backfill_seer_grouping_records";
      InitializeBackfill 77 None (Some 0);
      Log "backfill_seer_grouping_records.no_feature"],
     Returned ())
  ∧ ∀ a', ¬ enqueues example_env_without_feature
              (Example.args 77 None (CohortName "cohort_a") (Some 0) false)
              a'.
Proof.
  apply (feature_error_ends_the_walk example_env_without_feature
           (Example.args 77 None (CohortName "cohort_a") (Some 0) false)).
  - split; reflexivity.
  - reflexivity.
Defined.

(** ** Counting calls *)

Lemma filter_never (p : event → bool) (tr : list event) :
  never p tr → filter (λ e, p e = true) tr = [].
Proof.
  unfold never. induction tr as [|e tr IH]; [done|]. simpl.
  intros [He Htr]%andb_true_iff. rewrite filter_cons.
  destruct (decide (p e = true)) as [Hyes|_].
  - by rewrite Hyes in He.
  - by apply IH.
Qed.

Lemma filter_scheduler (p : event → bool) env g pid idx c od ei :
  (∀ e, is_scheduler_event e = true → p e = false) →
  filter (λ e, p e = true) (trace (call_next_backfill env g pid idx c od ei))
  = [].
Proof.
  intros Hp. apply filter_never. unfold never. apply forallb_forall.
  intros e He%list_elem_of_In%scheduler_events. by rewrite (Hp e He).
Qed.

(** X12. An invocation calls the similarity service at most once and
    [update_groups] at most once. *)
Theorem one_similarity_call_per_invocation (env : Env) (a : TaskArgs) :
  (length (filter (λ e, is_send_to_seer e = true)
             (trace (backfill_seer_grouping_records_for_project env a)))
   ≤ 1)%nat
  ∧ (length (filter (λ e, is_update_groups e = true)
               (trace (backfill_seer_grouping_records_for_project env a)))
     ≤ 1)%nat.
Proof.
  pose proof (backfill_path env a) as Hpath.
  destruct (backfill_seer_grouping_records_for_project env a) as [tr r].
  rewrite !trace_pair. unfold trace at 1, outcome in Hpath.
  simpl in Hpath.
  inversion Hpath; subst;
    unfold selection, snuba_calls, prologue, after_seer;
    try destruct (truthy (dict_get seer_response "success"));
    rewrite ?filter_app, ?filter_scheduler by (by intros []);
    simpl; lia.
Qed.

(** ** Chains of invocations *)

(** In [only_delete] mode a run selects no batch, makes no similarity call
    and writes nothing back. *)
Lemma only_delete_run_quiet (env : Env) (a : TaskArgs) :
  only_delete a = true →
  never is_batch_selection
    (trace (backfill_seer_grouping_records_for_project env a))
  ∧ never is_send_to_seer
      (trace (backfill_seer_grouping_records_for_project env a))
  ∧ never is_update_groups
      (trace (backfill_seer_grouping_records_for_project env a)).
Proof.
  intros Hdelete.
  pose proof (backfill_path env a) as Hpath.
  destruct (backfill_seer_grouping_records_for_project env a) as [tr r].
  rewrite !trace_pair. unfold trace at 1, outcome in Hpath.
  simpl in Hpath.
  inversion Hpath; subst;
    try match goal with
        | H : selects_batch _ _ _ _ _ _ _ |- _ =>
            destruct H as (_ & _ & ? & _); congruence
        end;
    try done;
    match goal with
    | |- context [call_next_backfill ?e ?g ?p ?i ?c ?od ?ei] =>
        destruct (call_next_backfill_quiet e g p i c od ei)
          as (? & _ & ? & ? & _)
    end;
    rewrite !never_app; by split_and!.
Qed.

(** X13. Along a chain of invocations, each run on the arguments the
    previous one enqueued, [cohort], [only_delete] and [enable_ingestion]
    never change. *)
Theorem chain_keeps_cohort_and_flags (env : Env) (a a' : TaskArgs) :
  rtc (enqueues env) a a' →
  cohort a' = cohort a
  ∧ only_delete a' = only_delete a
  ∧ enable_ingestion a' = enable_ingestion a.
Proof.
  induction 1 as [a | a b a' Hstep _ IH]; [done|].
  apply enqueues_inv in Hstep
    as (? & ? & _ & _ & Hcohort & Hdelete & Hingest & _).
  destruct IH as (-> & -> & ->). done.
Qed.

Lemma chain_keeps_cohort_and_flags_witness :
  cohort (Example.args 10 (Some 4) CohortNone (Some 0) false)
  = cohort (Example.args 10 None CohortNone None false)
  ∧ only_delete (Example.args 10 (Some 4) CohortNone (Some 0) false)
    = only_delete (Example.args 10 None CohortNone None false)
  ∧ enable_ingestion (Example.args 10 (Some 4) CohortNone (Some 0) false)
    = enable_ingestion (Example.args 10 None CohortNone None false).
Proof.
  apply (chain_keeps_cohort_and_flags Example.env).
  apply (rtc_l _ _ (Example.args 10 (Some 2) CohortNone (Some 0) false)).
  { exists false. vm_compute.
    do 10 apply list_elem_of_further. apply list_elem_of_here. }
  apply rtc_once.
  exists false. vm_compute.
  do 10 apply list_elem_of_further. apply list_elem_of_here.
Defined.

(** X14. Without a cohort ([None], the empty string or the empty list) a
    chain of invocations never leaves its project: every invocation of the
    chain is for the project of the first one. *)
Theorem single_project_chain_stays_on_project (env : Env)
    (a a' : TaskArgs) :
  cohort_truthy (cohort a) = false →
  rtc (enqueues env) a a' →
  current_project_id a' = current_project_id a.
Proof.
  intros Hcohort Hchain.
  induction Hchain as [a | a b a' Hstep _ IH]; [done|].
  apply enqueues_inv in Hstep
    as (? & ? & _ & _ & Hsame & _ & _
        & [(? & _ & Hproject & _) | (_ & Htruthy & _)]); [|congruence].
  rewrite <- Hproject. apply IH. by rewrite Hsame.
Qed.

Lemma single_project_chain_stays_on_project_witness :
  current_project_id (Example.args 10 (Some 4) CohortNone (Some 0) false)
  = current_project_id (Example.args 10 None CohortNone None false).
Proof.
  apply (single_project_chain_stays_on_project Example.env).
  - reflexivity.
  - apply (rtc_l _ _ (Example.args 10 (Some 2) CohortNone (Some 0) false)).
    { exists false. vm_compute.
      do 10 apply list_elem_of_further. apply list_elem_of_here. }
    apply rtc_once.
    exists false. vm_compute.
    do 10 apply list_elem_of_further. apply list_elem_of_here.
Defined.

(** X15. A chain started in [only_delete] mode stays in it: no invocation of
    the chain selects a batch, calls the similarity service or writes
    results back, and every task it enqueues has a null group cursor. *)
Theorem only_delete_chain_never_scores (env : Env) (a a' : TaskArgs) :
  only_delete a = true →
  rtc (enqueues env) a a' →
  only_delete a' = true
  ∧ never is_batch_selection
      (trace (backfill_seer_grouping_records_for_project env a'))
  ∧ never is_send_to_seer
      (trace (backfill_seer_grouping_records_for_project env a'))
  ∧ never is_update_groups
      (trace (backfill_seer_grouping_records_for_project env a'))
  ∧ ∀ a'', enqueues env a' a'' → last_processed_group_id_input a'' = None.
Proof.
  intros Hdelete Hchain.
  assert (only_delete a' = true) as Hdelete'.
  { induction Hchain as [a | a b a' Hstep _ IH]; [done|].
    apply enqueues_inv in Hstep as (? & ? & _ & _ & _ & Hsame & _).
    apply IH. by rewrite Hsame. }
  destruct (only_delete_run_quiet env a' Hdelete') as (? & ? & ?).
  split_and!; try done.
  intros a'' Hstep.
  apply enqueues_inv in Hstep
    as (group_cursor & project_index & _ & Hhand & _ & _ & _
        & [(g & -> & _) | (_ & _ & Hnull & _)]); [|done].
  destruct Hhand as [(? & _) | [(? & _) | (? & ? & ? & _ & _ & ? & _)]];
    congruence.
Qed.

Lemma only_delete_chain_never_scores_witness :
  only_delete (Example.args 404 None (CohortName "cohort_a") (Some 1) true)
  = true
  ∧ never is_batch_selection
      (trace (backfill_seer_grouping_records_for_project Example.env
                (Example.args 404 None (CohortName "cohort_a") (Some 1)
                   true)))
  ∧ never is_send_to_seer
      (trace (backfill_seer_grouping_records_for_project Example.env
                (Example.args 404 None (CohortName "cohort_a") (Some 1)
                   true)))
  ∧ never is_update_groups
      (trace (backfill_seer_grouping_records_for_project Example.env
                (Example.args 404 None (CohortName "cohort_a") (Some 1)
                   true)))
  ∧ ∀ a'', enqueues Example.env
             (Example.args 404 None (CohortName "cohort_a") (Some 1) true)
             a'' →
           last_processed_group_id_input a'' = None.
Proof.
  apply (only_delete_chain_never_scores Example.env
           (Example.args 10 None (CohortName "cohort_a") None true)).
  - reflexivity.
  - apply rtc_once. exists false. vm_compute.
    do 5 apply list_elem_of_further. apply list_elem_of_here.
Defined.

(** X16. A cohort name that is not a key of
    [SIMILARITY_BACKFILL_COHORT_MAP] is not an error: with a null group
    cursor the scheduler asks [get_project_for_batch] for the next project of
    the empty list, and enqueues what it produces or, when it produces no
    project, logs the end of the list. *)
Theorem unknown_cohort_name_is_an_empty_cohort (env : Env)
    (project_id project_index : Z) (name : string) (od ei : bool) :
  name ≠ "" →
  SIMILARITY_BACKFILL_COHORT_MAP env !! name = None →
  ∃ rest,
    call_next_backfill env None project_id project_index (CohortName name)
      od ei
    = (GetProjectForBatch project_index [] :: rest, Returned ())
    ∧ match get_project_for_batch env project_index [] with
      | (None, _) => rest = [Log "reached the end of the project list"]
      | (Some next_project_id, next_project_index) =>
          rest = [ApplyAsync
                    {| current_project_id := next_project_id;
                       last_processed_group_id_input := None;
                       cohort := CohortName name;
                       last_processed_project_index_input :=
                         next_project_index;
                       only_delete := od;
                       enable_ingestion := ei |} false]
      end.
Proof.
  intros Hname Hmissing.
  unfold call_next_backfill, mbind, task_bind, call, emit. simpl.
  apply String.eqb_neq in Hname. rewrite Hname. simpl.
  rewrite Hmissing. simpl.
  destruct (get_project_for_batch env project_index [])
    as [[next_project_id|] next_project_index]; simpl; eauto.
Qed.

Lemma unknown_cohort_name_is_an_empty_cohort_witness :
  ∃ rest,
    call_next_backfill Example.env None 10 0 (CohortName "cohort_z") false
      false
    = (GetProjectForBatch 0 [] :: rest, Returned ())
    ∧ match get_project_for_batch Example.env 0 [] with
      | (None, _) => rest = [Log "reached the end of the project list"]
      | (Some next_project_id, next_project_index) =>
          rest = [ApplyAsync
                    {| current_project_id := next_project_id;
                       last_processed_group_id_input := None;
                       cohort := CohortName "cohort_z";
                       last_processed_project_index_input :=
                         next_project_index;
                       only_delete := false;
                       enable_ingestion := false |} false]
      end.
Proof.
  apply (unknown_cohort_name_is_an_empty_cohort Example.env 10 0 "cohort_z"
           false false).
  - discriminate.
  - reflexivity.
Defined.

(** ** Why a walk stops *)

(** The scheduler enqueues nothing only when it was given a null group
    cursor and the cohort is falsy or has no next project. *)
Lemma scheduler_stops env g pid idx c od ei :
  never is_apply_async (trace (call_next_backfill env g pid idx c od ei)) →
  g = None
  ∧ (cohort_truthy c = false
     ∨ ∃ next_project_index,
         get_project_for_batch env idx (cohort_projects_of env c)
         = (None, next_project_index)).
Proof.
  unfold call_next_backfill, trace, never, mbind, task_bind, emit, call.
  destruct g as [group_id|]; simpl; [done|].
  destruct (cohort_truthy c); simpl; [|by auto].
  destruct (get_project_for_batch env idx (cohort_projects_of env c))
    as [[next_project_id|] next_project_index]; simpl; [done|].
  intros _. split; [done|]. right. by exists next_project_index.
Qed.

(** X17. An invocation enqueues nothing only for one of these reasons: a
    killswitch is tripped; [initialize_backfill] raised [FeatureError]; the
    project is missing and no project index was supplied; the similarity
    service reported a failure; or the task handed over to
    [call_next_backfill] with a null group cursor and the cohort is falsy or
    [get_project_for_batch] produced no next project. *)
Theorem walk_stops_only_for_a_reason (env : Env) (a : TaskArgs) :
  never is_apply_async
    (trace (backfill_seer_grouping_records_for_project env a)) →
  opt_killswitch_enabled env
  || killswitch_enabled env (current_project_id a) = true
  ∨ initialize_backfill env (current_project_id a)
      (last_processed_group_id_input a)
      (last_processed_project_index_input a) = InitFeatureError
  ∨ (initialize_backfill env (current_project_id a)
       (last_processed_group_id_input a)
       (last_processed_project_index_input a) = InitProjectDoesNotExist
     ∧ last_processed_project_index_input a = None)
  ∨ (∃ multithreaded group_ids snapshots project_id seer_response,
       SendToSeer multithreaded group_ids snapshots project_id seer_response
       ∈ trace (backfill_seer_grouping_records_for_project env a)
       ∧ truthy (dict_get seer_response "success") = false)
  ∨ (∃ project_index,
       hands_over env a None project_index
       ∧ (cohort_truthy (cohort a) = false
          ∨ ∃ next_project_index,
              get_project_for_batch env project_index
                (cohort_projects_of env (cohort a))
              = (None, next_project_index))).
Proof.
  intros Hquiet.
  pose proof (backfill_path env a) as Hpath.
  destruct (backfill_seer_grouping_records_for_project env a) as [tr r].
  rewrite trace_pair in Hquiet |- *.
  unfold trace at 1, outcome in Hpath. simpl in Hpath.
  inversion Hpath as
    [ Hkill
    | Hgate Hinit
    | Hgate Hinit Hindex
    | project_index Hgate Hinit Hindex
    | project cursor project_index Hgate Hinit Hdelete
    | project project_index cursor batch_end_id Hselects
    | project project_index cursor groups batch_end_id filtered
        Hselects Hgroups Hsnuba
    | project project_index cursor groups batch_end_id filtered has_snuba_row
        snapshots Hselects Hgroups Hsnuba Hrows Hnodestore
    | project project_index cursor groups batch_end_id filtered has_snuba_row
        snapshots group_hashes_dict Hselects Hgroups Hsnuba Hrows Hnodestore
        Hhashes ]; subst.
  - by left.
  - by auto.
  - by auto.
  - do 4 right. exists project_index.
    rewrite !never_app in Hquiet. destruct Hquiet as (_ & _ & Hstop).
    apply scheduler_stops in Hstop as [_ Hstop].
    split; [by left|done].
  - do 4 right. exists project_index.
    rewrite !never_app in Hquiet. destruct Hquiet as (_ & _ & Hstop).
    apply scheduler_stops in Hstop as [_ Hstop].
    split; [|done]. right. left. eauto.
  - do 4 right. exists project_index.
    rewrite !never_app in Hquiet. destruct Hquiet as (_ & Hstop).
    apply scheduler_stops in Hstop as [-> Hstop].
    split; [|done]. right. right. by exists project, cursor, [].
  - do 4 right. exists project_index.
    rewrite !never_app in Hquiet. destruct Hquiet as (_ & _ & Hstop).
    apply scheduler_stops in Hstop as [-> Hstop].
    split; [|done]. right. right. by exists project, cursor, groups.
  - do 4 right. exists project_index.
    rewrite !never_app in Hquiet. destruct Hquiet as (_ & _ & _ & Hstop).
    apply scheduler_stops in Hstop as [-> Hstop].
    split; [|done]. right. right. by exists project, cursor, groups.
  - unfold after_seer in *.
    destruct (truthy (dict_get seer_response "success")) eqn:Hsuccess.
    + do 4 right. exists project_index.
      rewrite !never_app in Hquiet.
      destruct Hquiet as (_ & _ & _ & _ & Hstop).
      apply scheduler_stops in Hstop as [-> Hstop].
      split; [|done]. right. right. by exists project, cursor, groups.
    + do 3 right. left.
      exists (multithreaded_selected env), group_ids, snapshots,
        (Project.id project), seer_response.
      split; [|done].
      unfold selection, snuba_calls, prologue. simpl.
      do 6 apply list_elem_of_further. apply list_elem_of_here.
Qed.

Lemma walk_stops_only_for_a_reason_witness :
  opt_killswitch_enabled Example.env || killswitch_enabled Example.env 12
  = true
  ∨ initialize_backfill Example.env 12 (Some 8) (Some 2) = InitFeatureError
  ∨ (initialize_backfill Example.env 12 (Some 8) (Some 2)
     = InitProjectDoesNotExist
     ∧ Some 2 = None)
  ∨ (∃ multithreaded group_ids snapshots project_id seer_response,
       SendToSeer multithreaded group_ids snapshots project_id seer_response
       ∈ trace (backfill_seer_grouping_records_for_project Example.env
                  (Example.args 12 (Some 8) (CohortName "cohort_a") (Some 2)
                     false))
       ∧ truthy (dict_get seer_response "success") = false)
  ∨ (∃ project_index,
       hands_over Example.env
         (Example.args 12 (Some 8) (CohortName "cohort_a") (Some 2) false)
         None project_index
       ∧ (cohort_truthy (CohortName "cohort_a") = false
          ∨ ∃ next_project_index,
              get_project_for_batch Example.env project_index
                (cohort_projects_of Example.env (CohortName "cohort_a"))
              = (None, next_project_index))).
Proof.
  apply (walk_stops_only_for_a_reason Example.env
           (Example.args 12 (Some 8) (CohortName "cohort_a") (Some 2) false)).
  reflexivity.
Defined.

(** ** The thread count *)

(** X18. The similarity call is made by the multithreaded sender when
    [similarity.backfill_seer_threads] exceeds 1 and by the sequential sender
    otherwise (0, 1 and negative values included), and the response the task
    goes on with is what that sender returned for the arguments of the
    call. *)
Theorem sender_follows_thread_count (env : Env) (a : TaskArgs)
    (multithreaded : bool) (group_ids : list Z) (snapshots : pyval)
    (project_id : Z) (seer_response : gmap string pyval) :
  SendToSeer multithreaded group_ids snapshots project_id seer_response
  ∈ trace (backfill_seer_grouping_records_for_project env a) →
  (multithreaded = true ↔ 1 < opt_backfill_seer_threads env)
  ∧ (multithreaded = false ↔ opt_backfill_seer_threads env ≤ 1)
  ∧ seer_response
    = (if multithreaded
       then send_group_and_stacktrace_to_seer_multithreaded env
       else send_group_and_stacktrace_to_seer env)
        group_ids snapshots project_id.
Proof.
  intros (Hmode & Hresponse & _)%sender_selection.
  split_and!; [done| |done].
  destruct Hmode as [Hlt Htrue]. destruct multithreaded.
  - split; [done|]. intros Hle. specialize (Hlt eq_refl). lia.
  - split; [|done]. intros _.
    destruct (decide (opt_backfill_seer_threads env ≤ 1)) as [|Hgt]; [done|].
    discriminate Htrue. lia.
Qed.

Lemma sender_follows_thread_count_witness :
  (true = true ↔ 1 < opt_backfill_seer_threads (with_threads Example.env 4))
  ∧ (true = false ↔ opt_backfill_seer_threads (with_threads Example.env 4) ≤ 1)
  ∧ ({[ "success" := PyBool true ]} : gmap string pyval)
    = send_group_and_stacktrace_to_seer_multithreaded
        (with_threads Example.env 4) [1] (PyList [PyInt 1]) 10.
Proof.
  apply (sender_follows_thread_count (with_threads Example.env 4)
           (Example.args 10 None CohortNone None false) true [1]
           (PyList [PyInt 1]) 10 {[ "success" := PyBool true ]}).
  vm_compute. do 6 apply list_elem_of_further. apply list_elem_of_here.
Defined.

(** X19. The thread count is read for the choice of the sender and for
    nothing else: when the two senders return the same response for the same
    arguments, the runs of an invocation under any two thread counts make the
    same calls with the same arguments, but for which sender makes the
    similarity call, and end the same way. *)
Theorem thread_count_only_selects_the_sender (env : Env) (a : TaskArgs)
    (threads threads' : Z) :
  (∀ group_ids snapshots project_id,
     send_group_and_stacktrace_to_seer_multithreaded env group_ids snapshots
       project_id
     = send_group_and_stacktrace_to_seer env group_ids snapshots project_id) →
  forget_mode
  <$> trace (backfill_seer_grouping_records_for_project
               (with_threads env threads) a)
  = forget_mode
    <$> trace (backfill_seer_grouping_records_for_project
                 (with_threads env threads') a)
  ∧ outcome (backfill_seer_grouping_records_for_project
               (with_threads env threads) a)
    = outcome (backfill_seer_grouping_records_for_project
                 (with_threads env threads') a).
Proof. apply runs_agree_up_to_mode. Qed.

Lemma thread_count_only_selects_the_sender_witness :
  forget_mode
  <$> trace (backfill_seer_grouping_records_for_project
               (with_threads Example.env 8)
               (Example.args 13 None CohortNone None false))
  = forget_mode
    <$> trace (backfill_seer_grouping_records_for_project
                 (with_threads Example.env 0)
                 (Example.args 13 None CohortNone None false))
  ∧ outcome (backfill_seer_grouping_records_for_project
               (with_threads Example.env 8)
               (Example.args 13 None CohortNone None false))
    = outcome (backfill_seer_grouping_records_for_project
                 (with_threads Example.env 0)
                 (Example.args 13 None CohortNone None false)).
Proof.
  apply (thread_count_only_selects_the_sender Example.env
           (Example.args 13 None CohortNone None false) 8 0).
  reflexivity.
Defined.
